(** * Excel-to-PowerPoint converter: a shallow embedding of
      [excel_to_powerpoint_gen.py] and the properties of its specification.

    The converter reads a workbook (sheet 1: settings, sheet 2: data) and
    builds a deck: a title slide, [slide_count - 2] content slides and a
    final slide with a table and a footnote.

    Python values are modelled as the interpreter has them: [int] is [Z],
    [float] is IEEE-754 binary64 (the executable specification [SpecFloat]
    of the standard library), [str] is [string], exceptions are values of
    an error monad.  openpyxl and python-pptx are modelled by the part of
    their interface the converter calls. *)

From Stdlib Require Import ZArith Lia Bool String Ascii List SpecFloat.
From stdpp Require Import base tactics option list numbers strings gmap pretty.

Open Scope Z_scope.

(** ** Exceptions, the error monad and the state monad *)

Inductive exn_class :=
  | ValueError | TypeError | OverflowError | IndexError | KeyError
  | AttributeError | FileNotFoundError.

(** An exception: its class and its message.  For exceptions raised by
    built-ins the message is the fixed stem of CPython's message (the
    [repr] of the operand that CPython appends is left out). *)
Record exn := Exn { exn_cls : exn_class; exn_msg : string }.

Inductive result (A : Type) :=
  | Ok (a : A)
  | Raise (e : exn).
Arguments Ok {A} a.
Arguments Raise {A} e.

#[global] Instance result_ret : MRet result := fun A a => Ok a.
#[global] Instance result_bind : MBind result := fun A B k m =>
  match m with
  | Ok a => k a
  | Raise e => Raise e
  end.

(** Stateful code: a computation over a mutable store [S] that returns or
    raises.  An exception does not roll the store back: what was mutated
    before it stays mutated. *)
Definition py (S A : Type) : Type := S -> result A * S.

#[global] Instance py_ret {S} : MRet (py S) := fun A a s => (Ok a, s).
#[global] Instance py_bind {S} : MBind (py S) := fun A B k m s =>
  match m s with
  | (Ok a, s') => k a s'
  | (Raise e, s') => (Raise e, s')
  end.

Definition raise {S A} (e : exn) : py S A := fun s => (Raise e, s).
Definition lift {S A} (r : result A) : py S A := fun s => (r, s).

(** [try: m except Exception: h] *)
Definition try_except {S A} (m : py S A) (h : exn -> py S A) : py S A :=
  fun s =>
    match m s with
    | (Ok a, s') => (Ok a, s')
    | (Raise e, s') => h e s'
    end.

(** [for x in l: body x], stopping at the first exception. *)
Fixpoint for_each {X S} (l : list X) (body : X -> py S unit) : py S unit :=
  match l with
  | [] => mret tt
  | x :: l' => _ ← body x; for_each l' body
  end.

(** [range(a, b)] and [range(b)] *)
Definition py_range (a b : Z) : list Z := seqZ a (b - a).
Definition py_range0 (b : Z) : list Z := py_range 0 b.

(** ** Floats: IEEE-754 binary64 *)

Module Binary64.
Definition prec : Z := 53.
Definition emax : Z := 1024.
Definition float := spec_float.

(** Nearest float of an integer (ties to even); infinite on overflow. *)
Definition of_Z (n : Z) : float := binary_normalize prec emax n 0 false.
Definition mul : float -> float -> float := SFmul prec emax.
Definition sub : float -> float -> float := SFsub prec emax.
Definition div : float -> float -> float := SFdiv prec emax.
Definition ltb : float -> float -> bool := SFltb.

(** The decimal literal [num/den] (both below [2^53]): the correctly
    rounded quotient is the float nearest to the decimal, which is what
    the Python parser produces. *)
Definition literal (num den : Z) : float := div (of_Z num) (of_Z den).

(** [x - y] and [x * y] with an [int] operand convert it first;
    conversion raises [OverflowError] when the nearest float is infinite. *)
Definition float_of_int (n : Z) : result float :=
  match of_Z n with
  | S754_infinity _ =>
      Raise (Exn OverflowError "int too large to convert to float")
  | f => Ok f
  end.

(** [int(f)]: truncation towards zero. *)
Definition int_of_float (f : float) : result Z :=
  match f with
  | S754_nan => Raise (Exn ValueError "cannot convert float NaN to integer")
  | S754_infinity _ =>
      Raise (Exn OverflowError "cannot convert float infinity to integer")
  | S754_zero _ => Ok 0
  | S754_finite s m e => Ok (cond_Zopp s (Z.shiftl (Z.pos m) e))
  end.

(** [min(a, b)] on floats: [b] when [b < a], else [a]. *)
Definition py_min (a b : float) : float := if ltb b a then b else a.

(** Truth value of a float: false exactly for zeros. *)
Definition truthy (f : float) : bool :=
  match f with
  | S754_zero _ => false
  | _ => true
  end.
End Binary64.

(** ** pptx.util: lengths in English Metric Units *)

Definition EMUS_PER_INCH : Z := 914400.
Definition EMUS_PER_PT : Z := 12700.

(** [Inches(x)] for a float [x]: [int(x * 914400)] *)
Definition Inches (x : Binary64.float) : result Z :=
  k ← Binary64.float_of_int EMUS_PER_INCH;
  Binary64.int_of_float (Binary64.mul x k).

(** [Pt(n)] for an int [n]: [int(n * 12700)] *)
Definition Pt (n : Z) : Z := n * EMUS_PER_PT.

(** [max(a, b)] on ints: [b] when [b > a], else [a]. *)
Definition py_max (a b : Z) : Z := if b >? a then b else a.

(** [x or 1] on ints *)
Definition py_or_1 (x : Z) : Z := if x =? 0 then 1 else x.

(** ** Python strings

    A [str] is modelled by a [string] whose characters are the code points
    below 256. *)

Definition code (a : ascii) : Z := Z.of_N (N_of_ascii a).

(** [str.isspace] on one character, for code points below 256. *)
Definition is_space (a : ascii) : bool :=
  let n := code a in
  ((9 <=? n) && (n <=? 13)) || ((28 <=? n) && (n <=? 32))
  || (n =? 133) || (n =? 160).

(** The blanks that [int] skips around a literal: those of C's [isspace],
    and in a text that is not ASCII the blanks above 127.  The separators
    28 to 31 are blanks for [str.strip] and not for [int]. *)
Definition is_int_space (a : ascii) : bool :=
  let n := code a in
  ((9 <=? n) && (n <=? 13)) || (n =? 32) || (n =? 133) || (n =? 160).

Fixpoint lstrip (blank : ascii -> bool) (s : string) : string :=
  match s with
  | String a r => if blank a then lstrip blank r else s
  | EmptyString => EmptyString
  end.

Fixpoint rstrip (blank : ascii -> bool) (s : string) : string :=
  match s with
  | String a r =>
      match rstrip blank r with
      | EmptyString => if blank a then EmptyString else String a EmptyString
      | r' => String a r'
      end
  | EmptyString => EmptyString
  end.

(** [s.strip()] *)
Definition strip (s : string) : string :=
  rstrip is_space (lstrip is_space s).

(** The literal that [int(s)] reads, without the blanks around it. *)
Definition int_strip (s : string) : string :=
  rstrip is_int_space (lstrip is_int_space s).

(** [s[i : i + 2]] *)
Definition slice2 (s : string) (i : nat) : string := substring i 2 s.

(** Value of a character as a digit, 37 when it is none
    (CPython's [_PyLong_DigitValue]). *)
Definition digit_value (a : ascii) : Z :=
  let n := code a in
  if (48 <=? n) && (n <=? 57) then n - 48
  else if (97 <=? n) && (n <=? 122) then n - 87
  else if (65 <=? n) && (n <=? 90) then n - 55
  else 37.

(** Digits of [base] with single underscores between them. *)
Fixpoint parse_digits (base : Z) (after_underscore : bool) (acc : Z)
    (s : string) : option Z :=
  match s with
  | EmptyString => if after_underscore then None else Some acc
  | String a r =>
      if Ascii.eqb a "_" then
        if after_underscore then None else parse_digits base true acc r
      else if digit_value a <? base then
        parse_digits base false (acc * base + digit_value a) r
      else None
  end.

(** The prefix [0x] or [0X] of a base-16 literal, with the one underscore
    allowed after it. *)
Definition skip_hex_prefix (s : string) : string :=
  match s with
  | String z (String x r) =>
      if Ascii.eqb z "0" && (Ascii.eqb x "x" || Ascii.eqb x "X") then
        match r with
        | String u r' => if Ascii.eqb u "_" then r' else r
        | EmptyString => r
        end
      else s
  | _ => s
  end.

(** [int(s, base)] for [base] 10 or 16. *)
Definition py_int_of_string (base : Z) (s : string) : result Z :=
  let invalid := Raise (Exn ValueError "invalid literal for int()") in
  let s1 := int_strip s in
  let '(neg, s2) :=
    match s1 with
    | String a r =>
        if Ascii.eqb a "+" then (false, r)
        else if Ascii.eqb a "-" then (true, r)
        else (false, s1)
    | EmptyString => (false, s1)
    end in
  let s3 := if base =? 16 then skip_hex_prefix s2 else s2 in
  match s3 with
  | EmptyString => invalid
  | String a _ =>
      if Ascii.eqb a "_" then invalid
      else
        match parse_digits base false 0 s3 with
        | Some n => Ok (if neg : bool then - n else n)
        | None => invalid
        end
  end.

(** [re.fullmatch(r"[0-9a-fA-F]{6}", s)] *)
Definition is_hex_digit (a : ascii) : bool := digit_value a <? 16.

Fixpoint all_hex (s : string) : bool :=
  match s with
  | EmptyString => true
  | String a r => is_hex_digit a && all_hex r
  end.

Definition fullmatch_hex6 (s : string) : bool :=
  (String.length s =? 6)%nat && all_hex s.

(** [s.startswith("#")] and [s[1:]] *)
Definition startswith_hash (s : string) : bool :=
  match s with
  | String a _ => Ascii.eqb a "#"
  | EmptyString => false
  end.

Definition tail (s : string) : string :=
  match s with
  | String _ r => r
  | EmptyString => EmptyString
  end.

(** ** openpyxl: a workbook loaded with [data_only=True] *)

Inductive CellValue :=
  | VNone
  | VBool (b : bool)
  | VInt (n : Z)
  | VFloat (f : Binary64.float)
  | VStr (s : string)
  | VDate (display : string).  (* a date or time, with its [str] *)

(** A worksheet: its cells by (row, column), both counted from 1.  A cell
    that exists may hold [None]. *)
Record Worksheet := { ws_cells : gmap (positive * positive) CellValue }.

(** The worksheets of a workbook, in order. *)
Record Workbook := { worksheets : list Worksheet }.

Definition cell_value (ws : Worksheet) (row column : positive) : CellValue :=
  default VNone (ws_cells ws !! (row, column)).

(** [ws.max_row] and [ws.max_column]: the largest index in use, 1 for a
    sheet without cells. *)
Definition max_row (ws : Worksheet) : Z :=
  Z.pos (foldr Pos.max 1%positive
           ((fun kv => kv.1.1) <$> map_to_list (ws_cells ws))).

Definition max_column (ws : Worksheet) : Z :=
  Z.pos (foldr Pos.max 1%positive
           ((fun kv => kv.1.2) <$> map_to_list (ws_cells ws))).

(** [ws.cell(row, column).value] *)
Definition cell (ws : Worksheet) (row column : Z) : result CellValue :=
  if (row <? 1) || (column <? 1) then
    Raise (Exn ValueError "Row or column values must be at least 1")
  else Ok (cell_value ws (Z.to_pos row) (Z.to_pos column)).

(** The cells of the settings row: [sheet["A2"].value] to
    [sheet["D2"].value]. *)
Definition A2 (sheet : Worksheet) : CellValue := cell_value sheet 2 1.
Definition B2 (sheet : Worksheet) : CellValue := cell_value sheet 2 2.
Definition C2 (sheet : Worksheet) : CellValue := cell_value sheet 2 3.
Definition D2 (sheet : Worksheet) : CellValue := cell_value sheet 2 4.

(** ** Built-ins on cell values *)

(** [int(v)] *)
Definition py_int (v : CellValue) : result Z :=
  match v with
  | VBool b => Ok (if b then 1 else 0)
  | VInt n => Ok n
  | VFloat f => Binary64.int_of_float f
  | VStr s => py_int_of_string 10 s
  | VNone | VDate _ =>
      Raise (Exn TypeError
        "int() argument must be a string, a bytes-like object or a real number")
  end.

(** Truth value of [v] *)
Definition truthy (v : CellValue) : bool :=
  match v with
  | VNone => false
  | VBool b => b
  | VInt n => negb (n =? 0)
  | VFloat f => Binary64.truthy f
  | VStr s => negb (String.eqb s "")
  | VDate _ => true
  end.

(** ** python-pptx: presentations

    A presentation is its template (the slide layouts) and its slides; a
    slide is its shapes.  What can fail in the calls of the converter is a
    lookup (of a layout by index, of the title placeholder, of a placeholder
    by [idx], of a table cell) and the range check of a font size.  Setting
    a text or a color stores the value; the text of a table cell is stored
    with its control characters escaped. *)

Record RGBColor := RGB { red : Z; green : Z; blue : Z }.

(** [RGBColor(r, g, b)] takes three ints in 0..255. *)
Definition RGBColor_new (r g b : Z) : result RGBColor :=
  if forallb (fun v => (0 <=? v) && (v <=? 255)) [r; g; b] then Ok (RGB r g b)
  else Raise (Exn ValueError "RGBColor() takes three integer values 0-255").

(** A paragraph with its text and the size (EMU) and color of its font. *)
Record Paragraph := Par {
  par_text : string;
  par_size : option Z;
  par_color : option RGBColor
}.

Definition TextFrame := list Paragraph.

Record Box := { box_left : Z; box_top : Z; box_width : Z; box_height : Z }.

Inductive Shape :=
  | Placeholder (idx : Z) (tf : TextFrame)
  | Table (box : Box) (cells : list (list string))
  | TextBox (box : Box) (tf : TextFrame).

Record Slide := { slide_shapes : list Shape }.

(** A slide layout: the [idx] of each placeholder a new slide inherits. *)
Definition SlideLayout := list Z.

(** A presentation: the layouts of its template and its slides, in order. *)
Record Presentation := {
  slide_layouts : list SlideLayout;
  slides : list Slide
}.

(** The eleven layouts of the template that [Presentation()] opens. *)
Definition default_template : list SlideLayout :=
  [ [0; 1]; [0; 1]; [0; 1]; [0; 1; 2]; [0; 1; 2; 3; 4]; [0]; [];
    [0; 1; 2]; [0; 1; 2]; [0; 1]; [0; 1] ].

(** [Presentation()] on a template *)
Definition Presentation_new (template : list SlideLayout) : Presentation :=
  {| slide_layouts := template; slides := [] |}.

Definition empty_paragraph : Paragraph := Par "" None None.

(** [tf.text = txt] for a text without line break or control character, as
    the texts of the converter are: one fresh paragraph. *)
Definition tf_set_text (txt : string) (tf : TextFrame) : result TextFrame :=
  Ok [Par txt None None].

(** [tf.clear()]: the first paragraph stays, without its text. *)
Definition tf_clear (tf : TextFrame) : result TextFrame :=
  match tf with
  | p :: _ => Ok [Par "" (par_size p) (par_color p)]
  | [] => Ok [empty_paragraph]
  end.

(** An update of [tf.paragraphs[0]] *)
Definition on_paragraph0 (f : Paragraph -> result Paragraph) (tf : TextFrame)
  : result TextFrame :=
  match tf with
  | p :: r => p' ← f p; Ok (p' :: r)
  | [] => Raise (Exn IndexError "tuple index out of range")
  end.

Definition set_par_text (txt : string) (p : Paragraph) : result Paragraph :=
  Ok (Par txt (par_size p) (par_color p)).

(** [Length.centipoints]: a length in hundredths of a point, [emu // 127]. *)
Definition centipoints (emu : Z) : Z := emu / 127.

(** What the range check of a font size raises. *)
Definition font_size_error (sz : Z) : exn :=
  Exn ValueError
    ("value must be in range 100 to 400000 inclusive, got " +:+ pretty sz).

(** [p.font.size = emu]: the size is stored in hundredths of a point, which
    must lie in 100..400000 (1pt to 4000pt); outside, the assignment raises
    [ValueError] and the paragraph is as it was.  The size read back is
    that of the stored hundredths. *)
Definition set_font_size (emu : Z) (p : Paragraph) : result Paragraph :=
  let sz := centipoints emu in
  if (sz <? 100) || (400000 <? sz) then Raise (font_size_error sz)
  else Ok (Par (par_text p) (Some (sz * 127)) (par_color p)).

Definition set_font_color (c : RGBColor) (p : Paragraph) : result Paragraph :=
  Ok (Par (par_text p) (par_size p) (Some c)).

(** The sizes in points that the range check accepts: 1pt to 4000pt. *)
Definition size_ok (n : Z) : bool := (1 <=? n) && (n <=? 4000).

(** Objects are referred to by position: a slide by its index in the
    presentation, a shape by its index on its slide.  Each library call
    either takes effect or raises and leaves the presentation as it was. *)

Definition with_slide (slide : nat) (f : Slide -> result Slide)
  : py Presentation unit :=
  fun prs =>
    match slides prs !! slide with
    | Some sl =>
        match f sl with
        | Ok sl' =>
            (Ok tt, {| slide_layouts := slide_layouts prs;
                       slides := <[slide := sl']> (slides prs) |})
        | Raise e => (Raise e, prs)
        end
    | None => (Raise (Exn IndexError "slide index out of range"), prs)
    end.

(** [prs.slide_layouts[i]] *)
Definition get_layout (i : nat) : py Presentation SlideLayout :=
  fun prs =>
    match slide_layouts prs !! i with
    | Some l => (Ok l, prs)
    | None => (Raise (Exn IndexError "slide layout index out of range"), prs)
    end.

(** [prs.slides.add_slide(layout)]: the new slide comes last and has an
    empty placeholder for each placeholder of the layout. *)
Definition new_slide (layout : SlideLayout) : Slide :=
  {| slide_shapes := (fun i => Placeholder i [empty_paragraph]) <$> layout |}.

Definition add_slide (layout : SlideLayout) : py Presentation nat :=
  fun prs =>
    (Ok (length (slides prs)),
     {| slide_layouts := slide_layouts prs;
        slides := slides prs ++ [new_slide layout] |}).

(** The text frame of the first placeholder with index [idx], if any. *)
Fixpoint find_placeholder (idx : Z) (l : list Shape) : option TextFrame :=
  match l with
  | Placeholder i tf :: r =>
      if i =? idx then Some tf else find_placeholder idx r
  | _ :: r => find_placeholder idx r
  | [] => None
  end.

Fixpoint replace_placeholder (idx : Z) (tf' : TextFrame) (l : list Shape)
  : list Shape :=
  match l with
  | Placeholder i tf :: r =>
      if i =? idx then Placeholder i tf' :: r
      else Placeholder i tf :: replace_placeholder idx tf' r
  | sh :: r => sh :: replace_placeholder idx tf' r
  | [] => []
  end.

(** An update of the text frame of the first placeholder with index [idx];
    [missing] is raised when there is none. *)
Definition alter_placeholder (idx : Z) (f : TextFrame -> result TextFrame)
    (missing : exn) (l : list Shape) : result (list Shape) :=
  match find_placeholder idx l with
  | Some tf => tf' ← f tf; Ok (replace_placeholder idx tf' l)
  | None => Raise missing
  end.

(** [slide.shapes.title] is the placeholder with index 0, or [None]. *)
Definition on_title (slide : nat) (f : TextFrame -> result TextFrame)
  : py Presentation unit :=
  with_slide slide (fun sl =>
    l ← alter_placeholder 0 f
          (Exn AttributeError "'NoneType' object has no attribute 'text'")
          (slide_shapes sl);
    Ok {| slide_shapes := l |}).

(** [slide.placeholders[idx]] raises [KeyError] when there is none. *)
Definition on_placeholder (slide : nat) (idx : Z)
    (f : TextFrame -> result TextFrame) : py Presentation unit :=
  with_slide slide (fun sl =>
    l ← alter_placeholder idx f
          (Exn KeyError "no placeholder on this slide with idx")
          (slide_shapes sl);
    Ok {| slide_shapes := l |}).

(** A new shape comes last on its slide. *)
Definition add_shape (slide : nat) (sh : Shape) : py Presentation nat :=
  fun prs =>
    match slides prs !! slide with
    | Some sl =>
        (Ok (length (slide_shapes sl)),
         {| slide_layouts := slide_layouts prs;
            slides := <[slide := {| slide_shapes := slide_shapes sl ++ [sh] |}]>
                        (slides prs) |})
    | None => (Raise (Exn IndexError "slide index out of range"), prs)
    end.

(** [slide.shapes.add_table(rows, cols, left, top, width, height)] *)
Definition add_table (slide : nat) (rows cols : Z) (box : Box)
  : py Presentation nat :=
  add_shape slide
    (Table box (replicate (Z.to_nat rows) (replicate (Z.to_nat cols) ""%string))).

(** [slide.shapes.add_textbox(left, top, width, height)] *)
Definition add_textbox (slide : nat) (box : Box) : py Presentation nat :=
  add_shape slide (TextBox box [empty_paragraph]).

Definition on_shape (slide shape : nat) (f : Shape -> result Shape)
  : py Presentation unit :=
  with_slide slide (fun sl =>
    match slide_shapes sl !! shape with
    | Some sh =>
        sh' ← f sh; Ok {| slide_shapes := <[shape := sh']> (slide_shapes sl) |}
    | None => Raise (Exn IndexError "shape index out of range")
    end).

(** The text of a run is stored with each control character other than
    tab, line feed and vertical tab written [_xHHHH_], four upper-case
    hexadecimal digits of its code point. *)
Definition hex_upper (n : Z) : ascii :=
  ascii_of_nat (Z.to_nat (if n <? 10 then 48 + n else 55 + n)).

Definition is_escaped (a : ascii) : bool :=
  (code a <=? 8) || ((12 <=? code a) && (code a <=? 31)).

Definition escape_char (a : ascii) : string :=
  if is_escaped a then
    String "_" (String "x" (String "0" (String "0"
      (String (hex_upper (code a / 16))
         (String (hex_upper (code a mod 16)) (String "_" ""))))))
  else String a "".

Fixpoint pptx_escape (s : string) : string :=
  match s with
  | EmptyString => EmptyString
  | String a r => escape_char a +:+ pptx_escape r
  end.

(** [table.cell(r, c).text = txt], for the indices [range] yields.  The
    cell holds what [cell.text] reads back: the paragraphs that the line
    feeds of [txt] separate joined by line feeds again, the line breaks of
    its vertical tabs as vertical tabs, and the runs between them with
    their control characters escaped. *)
Definition set_cell_text (r c : Z) (txt : string) (sh : Shape) : result Shape :=
  match sh with
  | Table box cells =>
      match cells !! Z.to_nat r with
      | Some row =>
          if (0 <=? r) && (0 <=? c) && (c <? Z.of_nat (length row)) then
            Ok (Table box
                  (<[Z.to_nat r := <[Z.to_nat c := pptx_escape txt]> row]> cells))
          else Raise (Exn IndexError "cell index out of range")
      | None => Raise (Exn IndexError "cell index out of range")
      end
  | _ => Raise (Exn AttributeError "shape has no attribute 'table'")
  end.

(** An update of [shape.text_frame] of a text box *)
Definition on_text_frame (f : TextFrame -> result TextFrame) (sh : Shape)
  : result Shape :=
  match sh with
  | TextBox box tf => tf' ← f tf; Ok (TextBox box tf')
  | Placeholder i tf => tf' ← f tf; Ok (Placeholder i tf')
  | Table _ _ => Raise (Exn AttributeError "shape has no attribute 'text_frame'")
  end.

(** The files the converter reads and writes. *)
Record FileSystem := {
  xlsx_files : gmap string Workbook;
  pptx_files : gmap string (list Slide)
}.

(** [openpyxl.load_workbook(path, data_only=True)] *)
Definition load_workbook (path : string) : py FileSystem Workbook :=
  fun fs =>
    match xlsx_files fs !! path with
    | Some wb => (Ok wb, fs)
    | None => (Raise (Exn FileNotFoundError "No such file or directory"), fs)
    end.

(** [prs.save(path)] *)
Definition save (prs : Presentation) (path : string) : py FileSystem unit :=
  fun fs =>
    (Ok tt, {| xlsx_files := xlsx_files fs;
               pptx_files := <[path := slides prs]> (pptx_files fs) |}).

(** ** The converter *)

Record PptSettings := {
  slide_count : Z;
  title_size_pt : Z;
  title_color : RGBColor;
  text_size_pt : Z
}.

Record ExcelToPPT := {
  excel_file : string;
  pptx_file : string;
  workbook : Workbook;
  settings_sheet : Worksheet;
  data_sheet : Worksheet;
  settings : PptSettings
}.

(** ['RRGGBB'] to [(R, G, B)]; raises [ValueError] if it is malformed. *)
Definition _hex_to_rgb_tuple (hex_str : string) : result (Z * Z * Z) :=
  r ← py_int_of_string 16 (slice2 hex_str 0);
  g ← py_int_of_string 16 (slice2 hex_str 2);
  b ← py_int_of_string 16 (slice2 hex_str 4);
  Ok (r, g, b).

Definition default_color : string := "1F4E79".

Definition _parse_hex_color (value : option string) : result RGBColor :=
  let use_default :=
    '(r, g, b) ← _hex_to_rgb_tuple default_color; RGBColor_new r g b in
  match value with
  | None => use_default
  | Some v =>
      if String.eqb v "" then use_default
      else
        let s := strip v in
        let s := if startswith_hash s then tail s else s in
        if negb (fullmatch_hex6 s) then use_default
        else '(r, g, b) ← _hex_to_rgb_tuple s; RGBColor_new r g b
  end.

(** Where the table of the final slide goes: the lengths that
    [_add_table_from_sheet] computes before it calls [add_table]. *)
Definition table_box (rows : Z) : result Box :=
  let slide_width_in := 10 in
  let slide_height_in := Binary64.literal 75 10 in
  let margin_left := Binary64.literal 7 10 in
  let margin_right := Binary64.literal 7 10 in
  let top := Binary64.literal 16 10 in
  let bottom_margin := Binary64.literal 10 10 in
  table_left ← Inches margin_left;
  table_top ← Inches top;
  w ← Binary64.float_of_int slide_width_in;
  table_width ←
    Inches (Binary64.sub (Binary64.sub w margin_left) margin_right);
  let max_table_height_in :=
    Binary64.sub (Binary64.sub slide_height_in top) bottom_margin in
  r ← Binary64.float_of_int rows;
  let desired_height := Binary64.mul (Binary64.literal 35 100) r in
  table_height ← Inches (Binary64.py_min desired_height max_table_height_in);
  Ok {| box_left := table_left; box_top := table_top;
        box_width := table_width; box_height := table_height |}.

(** Where the footnote goes: under the table, after a gap of 0.2in. *)
Definition footnote_box (table : Box) : result Box :=
  gap ← Inches (Binary64.literal 2 10);
  let footnote_top := box_top table + box_height table + gap in
  footnote_height ← Inches (Binary64.literal 4 10);
  Ok {| box_left := box_left table; box_top := footnote_top;
        box_width := box_width table; box_height := footnote_height |}.

Definition footnote_text : string := "* The values are estimated.".
Definition body_text : string := "Content goes here…".

Section Converter.
(** [repr] of a float, and the template that [Presentation()] opens. *)
Context (repr_float : Binary64.float -> string).
Context (template : list SlideLayout).

(** [str(v)] *)
Definition py_str (v : CellValue) : string :=
  match v with
  | VNone => "None"
  | VBool b => if b then "True" else "False"
  | VInt n => pretty n
  | VFloat f => repr_float f
  | VStr s => s
  | VDate d => d
  end.

(** The settings are in row 2 of the settings sheet, columns A to D. *)
Definition _read_settings (sheet : Worksheet) : result PptSettings :=
  slide_count ← py_int (A2 sheet);
  title_size ← py_int (B2 sheet);
  let title_color := C2 sheet in
  text_size ← py_int (D2 sheet);
  if slide_count <? 2 then
    Raise (Exn ValueError
      "slide_count (A2) must be at least 2 (title slide + final slide).")
  else
    color ← _parse_hex_color
              (if truthy title_color then Some (py_str title_color) else None);
    Ok {| slide_count := slide_count; title_size_pt := title_size;
          title_color := color; text_size_pt := text_size |}.

Definition __init__ (excel_file pptx_file : string)
  : py FileSystem ExcelToPPT :=
  wb ← load_workbook excel_file;
  if (length (worksheets wb) <? 2)%nat then
    raise (Exn ValueError
      "Workbook must contain at least 2 sheets: settings + data.")
  else
    match worksheets wb with
    | sheet0 :: sheet1 :: _ =>
        st ← lift (_read_settings sheet0);
        mret {| excel_file := excel_file; pptx_file := pptx_file;
                workbook := wb; settings_sheet := sheet0;
                data_sheet := sheet1; settings := st |}
    | _ => raise (Exn IndexError "list index out of range")
    end.

(** The text of a table cell: [""] for [None], [str(value)] otherwise. *)
Definition cell_text (value : CellValue) : string :=
  match value with
  | VNone => ""
  | _ => py_str value
  end.

Definition _add_table_from_sheet (self : ExcelToPPT) (slide : nat)
  : py Presentation unit :=
  let rows := py_or_1 (max_row (data_sheet self)) in
  let cols := py_or_1 (max_column (data_sheet self)) in
  tb ← lift (table_box rows);
  table ← add_table slide rows cols tb;
  _ ← for_each (py_range0 rows) (fun r =>
        for_each (py_range0 cols) (fun c =>
          value ← lift (cell (data_sheet self) (r + 1) (c + 1));
          on_shape slide table (set_cell_text r c (cell_text value))));
  fb ← lift (footnote_box tb);
  footnote ← add_textbox slide fb;
  _ ← on_shape slide footnote (on_text_frame tf_clear);
  _ ← on_shape slide footnote
        (on_text_frame (on_paragraph0 (set_par_text footnote_text)));
  on_shape slide footnote
    (on_text_frame (on_paragraph0
       (set_font_size (Pt (py_max 8 (text_size_pt (settings self) - 2)))))).

(** The body of a content slide (the statements under [try]). *)
Definition fill_body (self : ExcelToPPT) (s : nat) : py Presentation unit :=
  _ ← on_placeholder s 1 Ok;
  _ ← on_placeholder s 1 tf_clear;
  _ ← on_placeholder s 1 (tf_set_text body_text);
  on_placeholder s 1
    (on_paragraph0 (set_font_size (Pt (text_size_pt (settings self))))).

(** [create_presentation] up to the call of [save]. *)
Definition build_deck (self : ExcelToPPT) : py Presentation unit :=
  title_slide_layout ← get_layout 5;
  slide ← add_slide title_slide_layout;
  _ ← on_title slide (tf_set_text "Presentation");
  _ ← on_title slide
        (on_paragraph0 (set_font_size (Pt (title_size_pt (settings self)))));
  _ ← on_title slide
        (on_paragraph0 (set_font_color (title_color (settings self))));
  _ ← for_each (py_range 2 (slide_count (settings self))) (fun i =>
        slide_layout ← get_layout 1;
        s ← add_slide slide_layout;
        _ ← on_title s (tf_set_text ("Slide " +:+ pretty (i - 1)));
        try_except (fill_body self s) (fun _ => mret tt));
  final_layout ← get_layout 1;
  final_slide ← add_slide final_layout;
  _ ← on_title final_slide (tf_set_text "Final Results");
  _add_table_from_sheet self final_slide.

Definition create_presentation (self : ExcelToPPT) : py FileSystem unit :=
  fun fs =>
    match build_deck self (Presentation_new template) with
    | (Ok _, prs) => save prs (pptx_file self) fs
    | (Raise e, _) => (Raise e, fs)
    end.

(** The script: construct the converter, then build the deck. *)
Definition main (excel_file pptx_file : string) : py FileSystem unit :=
  converter ← __init__ excel_file pptx_file;
  create_presentation converter.
End Converter.

(** ** What the converter builds, in closed form

    The definitions below name the values the proofs establish: the slides
    of the deck as terms, the table cell by cell, and the observations the
    theorems are stated with. *)

(** The presentation with the layouts [template] and the slides [S]. *)
Definition mk (template : list SlideLayout) (S : list Slide) : Presentation :=
  {| slide_layouts := template; slides := S |}.

(** The shapes of a new slide of layout [l] once its title is set to [t]. *)
Definition titled (l : SlideLayout) (t : string) : list Shape :=
  replace_placeholder 0 [Par t None None] (slide_shapes (new_slide l)).

(** The table while it is filled: [g r c] is the text of cell [(r, c)]. *)
Section Grid.
Context (rows cols : Z) (g : Z -> Z -> string).

Definition blank_row : list string := replicate (Z.to_nat cols) ""%string.
Definition full_row (r : Z) : list string := g r <$> seqZ 0 cols.
Definition partial_row (r c : Z) : list string :=
  (g r <$> seqZ 0 c) ++ replicate (Z.to_nat (cols - c)) ""%string.
(** Rows below [r] are filled. *)
Definition grid_rows (r : Z) : list (list string) :=
  (full_row <$> seqZ 0 r) ++ replicate (Z.to_nat (rows - r)) blank_row.
(** Rows below [r] are filled, and row [r] up to column [c]. *)
Definition grid_at (r c : Z) : list (list string) :=
  (full_row <$> seqZ 0 r)
  ++ partial_row r c :: replicate (Z.to_nat (rows - r - 1)) blank_row.
End Grid.

Section Closed_forms.
Context (repr_float : Binary64.float -> string).
Context (self : ExcelToPPT).

(** The text of the table cell in row [r], column [c], both from 0. *)
Definition cell_string (r c : Z) : string :=
  pptx_escape
    (cell_text repr_float
       (cell_value (data_sheet self) (Z.to_pos (r + 1)) (Z.to_pos (c + 1)))).

Definition table_cells : list (list string) :=
  full_row (max_column (data_sheet self)) cell_string
    <$> seqZ 0 (max_row (data_sheet self)).

Definition table_shape (tb : Box) : Shape := Table tb table_cells.

Definition footnote_paragraph : Paragraph :=
  Par footnote_text
    (Some (Pt (py_max 8 (text_size_pt (settings self) - 2)))) None.

Definition footnote_shape (tb : Box) : Shape :=
  TextBox {| box_left := box_left tb;
             box_top := box_top tb + box_height tb + 182880;
             box_width := box_width tb; box_height := 365760 |}
    [footnote_paragraph].

Definition title_slide (l5 : SlideLayout) : Slide :=
  {| slide_shapes :=
       replace_placeholder 0
         [Par "Presentation" (Some (Pt (title_size_pt (settings self))))
            (Some (title_color (settings self)))]
         (slide_shapes (new_slide l5)) |}.

(** The body of a content slide: its text, at the body size of the settings
    when that is a size the range check accepts, with no size otherwise. *)
Definition body_paragraph : Paragraph :=
  Par body_text
    (if size_ok (text_size_pt (settings self))
     then Some (Pt (text_size_pt (settings self))) else None)
    None.

(** The content slide titled ["Slide k"]: with its body when the layout has
    a placeholder 1, with its title only when it has none. *)
Definition content_slide (l1 : SlideLayout) (k : Z) : Slide :=
  let sh := titled l1 ("Slide " +:+ pretty k) in
  {| slide_shapes :=
       if decide (1 ∈ l1) then replace_placeholder 1 [body_paragraph] sh
       else sh |}.

Definition final_slide (l1 : SlideLayout) (tb : Box) : Slide :=
  {| slide_shapes :=
       titled l1 "Final Results" ++ [table_shape tb; footnote_shape tb] |}.

Definition deck (l5 l1 : SlideLayout) (tb : Box) : list Slide :=
  title_slide l5
  :: (content_slide l1 <$> seqZ 1 (slide_count (settings self) - 2))
  ++ [final_slide l1 tb].
End Closed_forms.

(** Observations of a slide: the paragraphs of its title, of its body
    placeholder, and its tables and text boxes. *)
Definition slide_title (sl : Slide) : option TextFrame :=
  find_placeholder 0 (slide_shapes sl).

Definition slide_body (sl : Slide) : option TextFrame :=
  find_placeholder 1 (slide_shapes sl).

Definition is_placeholder (sh : Shape) : bool :=
  match sh with Placeholder _ _ => true | _ => false end.

Definition is_table (sh : Shape) : bool :=
  match sh with Table _ _ => true | _ => false end.

Definition is_text_box (sh : Shape) : bool :=
  match sh with TextBox _ _ => true | _ => false end.

Definition slide_tables (sl : Slide) : list Shape :=
  List.filter is_table (slide_shapes sl).

Definition slide_text_boxes (sl : Slide) : list Shape :=
  List.filter is_text_box (slide_shapes sl).

(** Lengths of the slide in EMU: one row of 0.35in, the cap of 4.9in. *)
Definition ROW_EMU : Z := 320040.
Definition CAP_EMU : Z := 4480560.

(** The check of the table height for one row count: the conversion of
    [rows] succeeds, the height is the exact [min(0.35in * rows, 4.9in)] in
    EMU or one EMU less (the product is rounded, then truncated), and it is
    exactly 4.9in from 15 rows on. *)
Definition table_box_check (rows : Z) : bool :=
  match Binary64.float_of_int rows with
  | Ok r =>
      match Inches (Binary64.py_min
                      (Binary64.mul (Binary64.literal 35 100) r)
                      (Binary64.literal 49 10)) with
      | Ok h =>
          (Z.min (ROW_EMU * rows) CAP_EMU - 1 <=? h)
          && (h <=? Z.min (ROW_EMU * rows) CAP_EMU)
          && implb (15 <=? rows) (h =? CAP_EMU)
      | Raise _ => false
      end
  | Raise _ => false
  end.

Definition overflow : exn :=
  Exn OverflowError "int too large to convert to float".

(** The color that six hexadecimal digits denote. *)
Definition hex_byte (a b : ascii) : Z := 16 * digit_value a + digit_value b.

Definition hex6_rgb (s : string) : RGBColor :=
  match s with
  | String a (String b (String c (String d (String e (String f _))))) =>
      RGB (hex_byte a b) (hex_byte c d) (hex_byte e f)
  | _ => RGB 0 0 0
  end.

Fixpoint no_space (s : string) : bool :=
  match s with
  | EmptyString => true
  | String a r => negb (is_space a) && no_space r
  end.


(** Texts without a control character that a table cell escapes. *)
Fixpoint plain_text (s : string) : bool :=
  match s with
  | EmptyString => true
  | String a r => negb (is_escaped a) && plain_text r
  end.

(** The argument of [_parse_hex_color] without blanks and leading [#]. *)
Definition normalized (v : string) : string :=
  let s := strip v in if startswith_hash s then tail s else s.

(** Content that is not a number: an empty cell, a date, or a text with a
    character that no integer literal contains. *)
Definition is_int_char (a : ascii) : bool :=
  (digit_value a <? 10) || is_int_space a || Ascii.eqb a "_"
  || Ascii.eqb a "+" || Ascii.eqb a "-".

Fixpoint has_non_int_char (s : string) : bool :=
  match s with
  | EmptyString => false
  | String a r => negb (is_int_char a) || has_non_int_char r
  end.

Definition non_numeric (v : CellValue) : bool :=
  match v with
  | VNone | VDate _ => true
  | VStr s => has_non_int_char s
  | VBool _ | VInt _ | VFloat _ => false
  end.

Definition too_few_sheets : exn :=
  Exn ValueError "Workbook must contain at least 2 sheets: settings + data.".

Definition slide_count_too_small : exn :=
  Exn ValueError
    "slide_count (A2) must be at least 2 (title slide + final slide).".

(** ** The scenario of the specification

    Settings [(4, 32, "#FF0000", 18)] and a data sheet of 3 rows and 2
    columns, in a file system where only the workbook exists. *)

Definition example_settings_sheet : Worksheet :=
  {| ws_cells := list_to_map
       [((2, 1), VInt 4); ((2, 2), VInt 32); ((2, 3), VStr "#FF0000");
        ((2, 4), VInt 18)]%positive |}.

Definition example_data_sheet : Worksheet :=
  {| ws_cells := list_to_map
       [((1, 1), VStr "item"); ((1, 2), VStr "value");
        ((2, 1), VStr "a"); ((2, 2), VInt 1);
        ((3, 1), VStr "b"); ((3, 2), VNone)]%positive |}.

Definition example_workbook : Workbook :=
  {| worksheets := [example_settings_sheet; example_data_sheet] |}.

Definition example_fs : FileSystem :=
  {| xlsx_files := {[ "data.xlsx"%string := example_workbook ]};
     pptx_files := ∅ |}.

Definition example_settings : PptSettings :=
  {| slide_count := 4; title_size_pt := 32; title_color := RGB 255 0 0;
     text_size_pt := 18 |}.

Definition example_converter : ExcelToPPT :=
  {| excel_file := "data.xlsx"; pptx_file := "presentation.pptx";
     workbook := example_workbook; settings_sheet := example_settings_sheet;
     data_sheet := example_data_sheet; settings := example_settings |}.

(** A [repr] of floats for the scenario, which has none. *)
Definition example_repr (f : Binary64.float) : string := "".

(** A template whose layout 1 has a title and no body placeholder. *)
Definition title_only_template : list SlideLayout :=
  [ [0; 1]; [0]; [0; 1]; [0; 1; 2]; [0; 1; 2; 3; 4]; [0] ].

(** A settings sheet whose slide count is 1 and whose title size is empty,
    and one whose slide count is no number. *)
Definition short_settings_sheet : Worksheet :=
  {| ws_cells := list_to_map
       [((2, 1), VInt 1); ((2, 3), VStr "#FF0000"); ((2, 4), VInt 18)]%positive |}.

Definition text_settings_sheet : Worksheet :=
  {| ws_cells := list_to_map
       [((2, 1), VStr "four"); ((2, 2), VInt 32); ((2, 4), VInt 18)]%positive |}.

(** Settings with a body size of 0pt, which the range check of a font size
    refuses. *)
Definition unsized_settings_sheet : Worksheet :=
  {| ws_cells := list_to_map
       [((2, 1), VInt 4); ((2, 2), VInt 32); ((2, 3), VStr "#FF0000");
        ((2, 4), VInt 0)]%positive |}.

Definition unsized_converter : ExcelToPPT :=
  {| excel_file := "data.xlsx"; pptx_file := "presentation.pptx";
     workbook := {| worksheets := [unsized_settings_sheet; example_data_sheet] |};
     settings_sheet := unsized_settings_sheet;
     data_sheet := example_data_sheet;
     settings := {| slide_count := 4; title_size_pt := 32;
                    title_color := RGB 255 0 0; text_size_pt := 0 |} |}.

(** A data sheet with a carriage return in a text cell. *)
Definition cr_text : string := String "a" (String (ascii_of_nat 13) "b").

Definition cr_data_sheet : Worksheet :=
  {| ws_cells := list_to_map [((1, 1), VStr cr_text)]%positive |}.

Definition cr_converter : ExcelToPPT :=
  {| excel_file := "data.xlsx"; pptx_file := "presentation.pptx";
     workbook := {| worksheets := [example_settings_sheet; cr_data_sheet] |};
     settings_sheet := example_settings_sheet;
     data_sheet := cr_data_sheet; settings := example_settings |}.

Definition fs_of (wb : Workbook) : FileSystem :=
  {| xlsx_files := {[ "data.xlsx"%string := wb ]}; pptx_files := ∅ |}.

Definition fs_with (sheet : Worksheet) : FileSystem :=
  {| xlsx_files :=
       {[ "data.xlsx"%string :=
            {| worksheets := [sheet; example_data_sheet] |} ]};
     pptx_files := ∅ |}.

(** * Proofs *)

(** ** Rounding in binary64

    [SpecFloat] comes without lemmas; the facts below relate the shifts
    of [binary_round_aux] to division by powers of two, which bounds the
    exponent of a rounded product. *)

Lemma digits2_pos_size p : digits2_pos p = Pos.size p.
Proof. induction p; simpl; congruence. Qed.

Lemma digits2_pos_log2 p : Z.pos (digits2_pos p) = Z.log2 (Z.pos p) + 1.
Proof. rewrite digits2_pos_size. destruct p; simpl; lia. Qed.

Lemma log2_div_pow2 m n :
  0 < m -> 0 <= n <= Z.log2 m ->
  0 < m / 2 ^ n /\ Z.log2 (m / 2 ^ n) = Z.log2 m - n.
Proof.
  intros Hm Hn.
  rewrite <- Z.shiftr_div_pow2 by lia.
  assert (E : Z.log2 (Z.shiftr m n) = Z.log2 m - n).
  { rewrite Z.log2_shiftr by lia. lia. }
  split; [|exact E].
  rewrite Z.shiftr_div_pow2 by lia.
  apply Z.div_str_pos. split; [apply Z.pow_pos_nonneg; lia|].
  transitivity (2 ^ Z.log2 m).
  - apply Z.pow_le_mono_r; lia.
  - apply Z.log2_spec; lia.
Qed.

Lemma shr_m_shr_1 mrs : 0 <= shr_m mrs -> shr_m (shr_1 mrs) = shr_m mrs / 2.
Proof.
  destruct mrs as [m r s]; simpl; intros H.
  rewrite <- Z.div2_div.
  destruct m as [|[p|p|]|p]; try reflexivity; lia.
Qed.

Lemma pow2_xI p : 2 ^ Z.pos p~1 = 2 * 2 ^ Z.pos p * 2 ^ Z.pos p.
Proof.
  replace (Z.pos p~1) with (1 + Z.pos p + Z.pos p) by lia.
  rewrite !Z.pow_add_r by lia. reflexivity.
Qed.

Lemma pow2_xO p : 2 ^ Z.pos p~0 = 2 ^ Z.pos p * 2 ^ Z.pos p.
Proof.
  replace (Z.pos p~0) with (Z.pos p + Z.pos p) by lia.
  rewrite Z.pow_add_r by lia. reflexivity.
Qed.

Lemma shr_m_iter p mrs :
  0 <= shr_m mrs ->
  shr_m (SpecFloat.iter_pos shr_1 p mrs) = shr_m mrs / 2 ^ Z.pos p.
Proof.
  revert mrs. induction p as [p IH|p IH|]; intros mrs H; simpl SpecFloat.iter_pos.
  - assert (H1 : 0 <= shr_m (shr_1 mrs)).
    { rewrite shr_m_shr_1 by exact H. apply Z.div_pos; lia. }
    assert (H2 : 0 <= shr_m (SpecFloat.iter_pos shr_1 p (shr_1 mrs))).
    { rewrite IH by exact H1. apply Z.div_pos; [lia|]. apply Z.pow_pos_nonneg; lia. }
    assert (P : 0 < 2 ^ Z.pos p) by (apply Z.pow_pos_nonneg; lia).
    rewrite IH, IH, shr_m_shr_1 by assumption.
    rewrite !Z.div_div by lia. rewrite pow2_xI. f_equal. lia.
  - assert (H2 : 0 <= shr_m (SpecFloat.iter_pos shr_1 p mrs)).
    { rewrite IH by exact H. apply Z.div_pos; [lia|]. apply Z.pow_pos_nonneg; lia. }
    assert (P : 0 < 2 ^ Z.pos p) by (apply Z.pow_pos_nonneg; lia).
    rewrite IH, IH by assumption.
    rewrite Z.div_div by lia. rewrite pow2_xO. reflexivity.
  - rewrite shr_m_shr_1 by exact H. reflexivity.
Qed.

Lemma shr_m_of_loc m l : shr_m (shr_record_of_loc m l) = m.
Proof. destruct l as [|[]]; reflexivity. Qed.

(** [shr_fexp] shifts the mantissa right to the exponent of the format. *)
Lemma shr_fexp_spec m e l :
  0 < m ->
  let e' := Z.max e (fexp Binary64.prec Binary64.emax (Z.log2 m + 1 + e)) in
  exists mrs,
    shr_fexp Binary64.prec Binary64.emax m e l = (mrs, e')
    /\ shr_m mrs = m / 2 ^ (e' - e).
Proof.
  intros Hm e'. unfold shr_fexp, shr.
  assert (D : Zdigits2 m = Z.log2 m + 1).
  { destruct m as [|p|p]; try lia. simpl. apply digits2_pos_log2. }
  rewrite D. fold e'.
  destruct (fexp Binary64.prec Binary64.emax (Z.log2 m + 1 + e) - e) as [|n|n] eqn:E.
  - exists (shr_record_of_loc m l). replace e' with e by lia.
    rewrite Z.sub_diag, Z.div_1_r. split; [reflexivity|apply shr_m_of_loc].
  - eexists. replace e' with (e + Z.pos n) by lia. split; [reflexivity|].
    rewrite shr_m_iter by (rewrite shr_m_of_loc; lia).
    rewrite shr_m_of_loc. f_equal. f_equal. lia.
  - exists (shr_record_of_loc m l). replace e' with e by lia.
    rewrite Z.sub_diag, Z.div_1_r. split; [reflexivity|apply shr_m_of_loc].
Qed.

Lemma round_nearest_even_bounds m l :
  m <= round_nearest_even m l <= m + 1.
Proof.
  destruct l as [|[]]; simpl; try lia. destruct (Z.even m); lia.
Qed.

Lemma fexp64 e : fexp Binary64.prec Binary64.emax e = Z.max (e - 53) (-1074).
Proof. reflexivity. Qed.

(** Rounding an exact positive value [mx * 2^ex] above the subnormal
    threshold: the result is finite or infinite, never smaller in
    magnitude class than the input, and its exponent is the format's. *)
Lemma round_aux_exact s mx ex :
  let d := Z.log2 (Z.pos mx) + 1 in
  let e1 := Z.max ex (Z.max (d + ex - 53) (-1074)) in
  -1074 < d + ex ->
  exists m3 e3,
    binary_round_aux Binary64.prec Binary64.emax s (Z.pos mx) ex loc_Exact
      = (if e3 <=? 971 then S754_finite s m3 e3 else S754_infinity s)
    /\ e1 <= e3 <= e1 + 1
    /\ d + ex <= Z.log2 (Z.pos m3) + 1 + e3.
Proof.
  intros d e1 Hd. unfold binary_round_aux.
  destruct (shr_fexp_spec (Z.pos mx) ex loc_Exact) as (mrs1 & E1 & M1); [lia|].
  rewrite E1. rewrite fexp64 in M1. fold d e1 in M1.
  rewrite fexp64. fold d e1.
  assert (L0 : 0 <= Z.log2 (Z.pos mx)) by apply Z.log2_nonneg.
  destruct (log2_div_pow2 (Z.pos mx) (e1 - ex)) as [P1 D1]; [lia|lia|].
  rewrite <- M1 in P1, D1.
  set (m1 := shr_m mrs1) in *.
  pose proof (round_nearest_even_bounds m1 (loc_of_shr_record mrs1)) as B2.
  set (m2 := round_nearest_even m1 (loc_of_shr_record mrs1)) in *.
  assert (U1 : m1 < 2 ^ 53).
  { apply Z.log2_lt_pow2; lia. }
  assert (D2 : Z.log2 m1 <= Z.log2 m2 <= 53).
  { split; [apply Z.log2_le_mono; lia|].
    destruct (Z.eq_dec m2 (2 ^ 53)) as [->|N]; [rewrite Z.log2_pow2; lia|].
    assert (Z.log2 m2 < 53); [apply Z.log2_lt_pow2; lia|lia]. }
  destruct (shr_fexp_spec m2 e1 loc_Exact) as (mrs3 & E3 & M3); [lia|].
  rewrite E3. rewrite fexp64 in M3 |- *.
  set (e3 := Z.max e1 (Z.max (Z.log2 m2 + 1 + e1 - 53) (-1074))) in *.
  destruct (log2_div_pow2 m2 (e3 - e1)) as [P3 D3]; [lia|lia|].
  rewrite <- M3 in P3, D3.
  destruct (shr_m mrs3) as [|m3|m3] eqn:Em3; try lia.
  exists m3, e3. split; [reflexivity|]. split; lia.
Qed.

Lemma log2_iter_xO mx d :
  Z.log2 (Z.pos (Pos.iter xO mx d)) = Z.log2 (Z.pos mx) + Z.pos d.
Proof.
  induction d as [|d IH] using Pos.peano_ind.
  - simpl Pos.iter. rewrite Pos2Z.inj_xO, Z.log2_double; lia.
  - rewrite Pos.iter_succ, Pos2Z.inj_xO, Z.log2_double, IH; lia.
Qed.

Lemma shl_align_spec mx ex ex' :
  exists mz ez,
    shl_align mx ex ex' = (mz, ez) /\ ez = Z.min ex ex'
    /\ Z.log2 (Z.pos mz) + ez = Z.log2 (Z.pos mx) + ex.
Proof.
  unfold shl_align. destruct (ex' - ex) as [|d|d] eqn:E.
  - exists mx, ex. repeat split; lia.
  - exists mx, ex. repeat split; lia.
  - exists (Pos.iter xO mx d), ex'. rewrite log2_iter_xO. repeat split; lia.
Qed.

(** The float of a positive integer: its exponent follows the size of the
    integer, so that the conversion overflows only from [2^1023] on. *)
Lemma of_Z_pos n :
  0 < n ->
  exists m e,
    Binary64.of_Z n
      = (if e <=? 971 then S754_finite false m e else S754_infinity false)
    /\ Z.log2 n - 52 <= e <= Z.log2 n - 51
    /\ Z.log2 n <= Z.log2 (Z.pos m) + e.
Proof.
  intros Hn. destruct n as [|p|p]; try lia.
  unfold Binary64.of_Z, binary_normalize, binary_round.
  rewrite digits2_pos_log2, fexp64.
  destruct (shl_align_spec p 0 (Z.max (Z.log2 (Z.pos p) + 1 + 0 - 53) (-1074)))
    as (mz & ez & -> & Ez & Lz).
  assert (L0 : 0 <= Z.log2 (Z.pos p)) by apply Z.log2_nonneg.
  destruct (round_aux_exact false mz ez) as (m3 & e3 & -> & B & L); [lia|].
  exists m3, e3. split; [reflexivity|]. lia.
Qed.

Lemma float_of_int_cases n :
  0 < n ->
  (exists m e, Binary64.float_of_int n = Ok (S754_finite false m e)
               /\ Z.log2 n <= Z.log2 (Z.pos m) + e)
  \/ (2 ^ 1023 <= n
      /\ Binary64.float_of_int n
         = Raise (Exn OverflowError "int too large to convert to float")).
Proof.
  intros Hn. destruct (of_Z_pos n Hn) as (m & e & E & B & L).
  unfold Binary64.float_of_int. rewrite E.
  destruct (Z.leb_spec e 971).
  - left. exists m, e. split; [reflexivity|lia].
  - right. split; [|reflexivity].
    apply Z.log2_le_pow2; lia.
Qed.

(** [0.35 * x] for a float [x >= 32] is above [4.9]. *)
Lemma desired_height_large m e :
  5 <= Z.log2 (Z.pos m) + e ->
  Binary64.ltb (Binary64.literal 49 10)
    (Binary64.mul (Binary64.literal 35 100) (S754_finite false m e)) = true.
Proof.
  intros H.
  change (Binary64.literal 35 100)
    with (S754_finite false 6305039478318694 (-54)).
  change (Binary64.literal 49 10)
    with (S754_finite false 5516909543528858 (-50)).
  unfold Binary64.mul, SFmul. simpl xorb.
  assert (L : 52 + Z.log2 (Z.pos m)
              <= Z.log2 (Z.pos (6305039478318694 * m))).
  { rewrite Pos2Z.inj_mul.
    change 52 with (Z.log2 (Z.pos 6305039478318694)).
    apply Z.log2_mul_below; lia. }
  destruct (round_aux_exact false (6305039478318694 * m) (-54 + e))
    as (m3 & e3 & -> & B & _); [lia|].
  destruct (Z.leb_spec e3 971); [|reflexivity].
  unfold Binary64.ltb, SFltb, SFcompare.
  destruct (Z.compare_spec (-50) e3); first [lia | reflexivity].
Qed.

Lemma bind_Ok {A B} (a : A) (k : A -> result B) : (Ok a ≫= k) = k a.
Proof. reflexivity. Qed.

Lemma table_box_unfold rows :
  table_box rows =
    (r ← Binary64.float_of_int rows;
     h ← Inches (Binary64.py_min (Binary64.mul (Binary64.literal 35 100) r)
                   (Binary64.literal 49 10));
     Ok {| box_left := 640080; box_top := 1463040;
           box_width := 7863840; box_height := h |}).
Proof. reflexivity. Qed.

Lemma table_box_small : forallb table_box_check (seqZ 1 31) = true.
Proof. vm_compute. reflexivity. Qed.

Lemma table_box_cases rows :
  1 <= rows ->
  (exists r h,
      Binary64.float_of_int rows = Ok r
      /\ Inches (Binary64.py_min (Binary64.mul (Binary64.literal 35 100) r)
                   (Binary64.literal 49 10)) = Ok h
      /\ table_box rows = Ok {| box_left := 640080; box_top := 1463040;
                               box_width := 7863840; box_height := h |}
      /\ Z.min (ROW_EMU * rows) CAP_EMU - 1 <= h <= Z.min (ROW_EMU * rows) CAP_EMU
      /\ (15 <= rows -> h = CAP_EMU))
  \/ (2 ^ 1023 <= rows /\ table_box rows = Raise overflow).
Proof.
  intros H1. rewrite table_box_unfold.
  destruct (Z.lt_ge_cases rows 32) as [Hs|Hl].
  - left. pose proof table_box_small as C.
    rewrite forallb_forall in C.
    specialize (C rows ltac:(apply list_elem_of_In, elem_of_seqZ; lia)).
    unfold table_box_check in C.
    destruct (Binary64.float_of_int rows) as [r|] eqn:Er; [|discriminate C].
    destruct (Inches _) as [h|] eqn:Eh in C; [|discriminate C].
    apply andb_true_iff in C. destruct C as [C C3].
    apply andb_true_iff in C. destruct C as [C1 C2].
    apply Z.leb_le in C1, C2.
    exists r, h. split; [reflexivity|]. split; [exact Eh|].
    split; [rewrite bind_Ok, Eh; reflexivity|]. split; [lia|].
    intros H15. destruct (Z.leb_spec 15 rows); [|lia].
    simpl in C3. apply Z.eqb_eq in C3. exact C3.
  - destruct (float_of_int_cases rows) as [(m & e & E & L)|[Hb E]]; [lia| |].
    + left.
      assert (5 <= Z.log2 rows) by (apply Z.log2_le_pow2; lia).
      exists (S754_finite false m e), CAP_EMU.
      assert (Eh : Inches (Binary64.py_min
                     (Binary64.mul (Binary64.literal 35 100) (S754_finite false m e))
                     (Binary64.literal 49 10)) = Ok CAP_EMU).
      { unfold Binary64.py_min. rewrite desired_height_large by lia.
        vm_compute. reflexivity. }
      split; [exact E|]. split; [exact Eh|].
      split; [rewrite E, bind_Ok, Eh; reflexivity|].
      unfold ROW_EMU, CAP_EMU. lia.
    + right. rewrite E. split; [exact Hb|reflexivity].
Qed.

(** ** The state monad and its loops *)

Lemma py_bind_Ok {S A B} (m : py S A) (k : A -> py S B) s a s' :
  m s = (Ok a, s') -> (m ≫= k) s = k a s'.
Proof. intros E. unfold mbind, py_bind. rewrite E. reflexivity. Qed.

Lemma py_bind_Raise {S A B} (m : py S A) (k : A -> py S B) s e s' :
  m s = (Raise e, s') -> (m ≫= k) s = (Raise e, s').
Proof. intros E. unfold mbind, py_bind. rewrite E. reflexivity. Qed.

(** Font sizes given in points. *)
Lemma centipoints_Pt n : centipoints (Pt n) = 100 * n.
Proof.
  unfold centipoints, Pt, EMUS_PER_PT.
  replace (n * 12700) with (100 * n * 127) by lia. apply Z.div_mul. lia.
Qed.

Lemma set_font_size_ok n p :
  size_ok n = true ->
  set_font_size (Pt n) p = Ok (Par (par_text p) (Some (Pt n)) (par_color p)).
Proof.
  unfold size_ok, set_font_size. intros H. apply andb_true_iff in H.
  destruct H as [H1 H2]. apply Z.leb_le in H1, H2. cbv zeta.
  rewrite centipoints_Pt.
  destruct (Z.ltb_spec (100 * n) 100); [lia|].
  destruct (Z.ltb_spec 400000 (100 * n)); [lia|]. cbn [orb].
  do 3 f_equal. unfold Pt, EMUS_PER_PT. lia.
Qed.

Lemma set_font_size_bad n p :
  size_ok n = false ->
  set_font_size (Pt n) p = Raise (font_size_error (100 * n)).
Proof.
  unfold size_ok, set_font_size. intros H. cbv zeta.
  rewrite centipoints_Pt.
  destruct (Z.ltb_spec (100 * n) 100); [reflexivity|].
  destruct (Z.ltb_spec 400000 (100 * n)); [reflexivity|].
  destruct (Z.leb_spec 1 n); [|lia].
  destruct (Z.leb_spec n 4000); [discriminate H|lia].
Qed.

Lemma pptx_escape_plain s : plain_text s = true -> pptx_escape s = s.
Proof.
  induction s as [|a s IH]; [reflexivity|].
  cbn [plain_text pptx_escape]. intros H. apply andb_true_iff in H.
  destruct H as [Ha Hs]. unfold escape_char.
  destruct (is_escaped a); [discriminate Ha|].
  rewrite (IH Hs). reflexivity.
Qed.

(** The loop rule: an invariant indexed by the loop variable. *)
Lemma for_each_seqZ {S} (I : Z -> S -> Prop) (body : Z -> py S unit) n :
  0 <= n -> forall a s,
  I a s ->
  (forall i s, a <= i < a + n -> I i s ->
     exists s', body i s = (Ok tt, s') /\ I (i + 1) s') ->
  exists s', for_each (seqZ a n) body s = (Ok tt, s') /\ I (a + n) s'.
Proof.
  intros Hn. pattern n. apply natlike_ind; [| |exact Hn]; clear n Hn.
  - intros a s Ha _. exists s. rewrite Z.add_0_r. split; [reflexivity|exact Ha].
  - intros n Hn IH a s Ha Hbody.
    rewrite seqZ_cons by lia. rewrite Z.pred_succ. simpl for_each.
    destruct (Hbody a s ltac:(lia) Ha) as (s1 & E1 & I1).
    rewrite (py_bind_Ok _ _ _ _ _ E1).
    destruct (IH (Z.succ a) s1) as (s2 & E2 & I2).
    + replace (Z.succ a) with (a + 1) by lia. exact I1.
    + intros i s0 Hi. apply Hbody. lia.
    + exists s2. split; [exact E2|].
      replace (a + Z.succ n) with (Z.succ a + n) by lia. exact I2.
Qed.

(** ** Building the deck *)

Section Deck.
Context (tpl : list SlideLayout).
Context (rf : Binary64.float -> string) (self : ExcelToPPT).

Lemma get_layout_mk i l S :
  tpl !! i = Some l -> get_layout i (mk tpl S) = (Ok l, mk tpl S).
Proof. intros E. unfold get_layout. simpl. rewrite E. reflexivity. Qed.

Lemma add_slide_mk l S :
  add_slide l (mk tpl S) = (Ok (length S), mk tpl (S ++ [new_slide l])).
Proof. reflexivity. Qed.

Lemma with_slide_last S sl f sl' :
  f sl = Ok sl' ->
  with_slide (length S) f (mk tpl (S ++ [sl])) = (Ok tt, mk tpl (S ++ [sl'])).
Proof.
  intros E. unfold with_slide, mk. simpl.
  rewrite list_lookup_middle by reflexivity. rewrite E.
  rewrite insert_app_r_alt by lia. rewrite Nat.sub_diag. reflexivity.
Qed.

Lemma with_slide_last_raise S sl f e :
  f sl = Raise e ->
  with_slide (length S) f (mk tpl (S ++ [sl])) = (Raise e, mk tpl (S ++ [sl])).
Proof.
  intros E. unfold with_slide, mk. simpl.
  rewrite list_lookup_middle by reflexivity. rewrite E. reflexivity.
Qed.

Lemma on_title_last S sh f tf tf' :
  find_placeholder 0 sh = Some tf -> f tf = Ok tf' ->
  on_title (length S) f (mk tpl (S ++ [{| slide_shapes := sh |}]))
  = (Ok tt, mk tpl (S ++ [{| slide_shapes := replace_placeholder 0 tf' sh |}])).
Proof.
  intros E F. unfold on_title. apply with_slide_last.
  unfold alter_placeholder. simpl. rewrite E. simpl. rewrite F. reflexivity.
Qed.

Lemma on_placeholder_last S sh idx f tf tf' :
  find_placeholder idx sh = Some tf -> f tf = Ok tf' ->
  on_placeholder (length S) idx f (mk tpl (S ++ [{| slide_shapes := sh |}]))
  = (Ok tt, mk tpl (S ++ [{| slide_shapes := replace_placeholder idx tf' sh |}])).
Proof.
  intros E F. unfold on_placeholder. apply with_slide_last.
  unfold alter_placeholder. simpl. rewrite E. simpl. rewrite F. reflexivity.
Qed.

Lemma on_placeholder_missing S sh idx f :
  find_placeholder idx sh = None ->
  on_placeholder (length S) idx f (mk tpl (S ++ [{| slide_shapes := sh |}]))
  = (Raise (Exn KeyError "no placeholder on this slide with idx"),
     mk tpl (S ++ [{| slide_shapes := sh |}])).
Proof.
  intros E. unfold on_placeholder. apply with_slide_last_raise. simpl.
  unfold alter_placeholder. rewrite E. reflexivity.
Qed.

Lemma find_replace_eq idx tf' sh :
  is_Some (find_placeholder idx sh) ->
  find_placeholder idx (replace_placeholder idx tf' sh) = Some tf'.
Proof.
  induction sh as [|[i tf|b c|b tf] sh IH]; simpl; intros H.
  - destruct H as [? H]. discriminate H.
  - destruct (Z.eqb_spec i idx) as [->|N]; simpl.
    + rewrite Z.eqb_refl. reflexivity.
    + destruct (Z.eqb_spec i idx); [contradiction|]. apply IH, H.
  - apply IH, H.
  - apply IH, H.
Qed.

Lemma find_replace_ne idx j tf' sh :
  j <> idx ->
  find_placeholder j (replace_placeholder idx tf' sh) = find_placeholder j sh.
Proof.
  intros N. induction sh as [|[i tf|b c|b tf] sh IH]; simpl; try exact IH.
  - reflexivity.
  - destruct (Z.eqb_spec i idx) as [->|Ni]; simpl.
    + destruct (Z.eqb_spec idx j); [congruence|reflexivity].
    + rewrite IH. reflexivity.
Qed.

Lemma replace_replace idx a b sh :
  replace_placeholder idx a (replace_placeholder idx b sh)
  = replace_placeholder idx a sh.
Proof.
  induction sh as [|[i tf|bx c|bx tf] sh IH]; simpl; try (rewrite IH; reflexivity).
  - reflexivity.
  - destruct (Z.eqb_spec i idx) as [->|Ni]; simpl.
    + rewrite Z.eqb_refl. reflexivity.
    + destruct (Z.eqb_spec i idx); [contradiction|]. rewrite IH. reflexivity.
Qed.

Lemma find_fresh idx l :
  find_placeholder idx ((fun i => Placeholder i [empty_paragraph]) <$> l)
  = if decide (idx ∈ l) then Some [empty_paragraph] else None.
Proof.
  induction l as [|i l IH].
  - destruct (decide (idx ∈ [])) as [H|H]; [inversion H|reflexivity].
  - rewrite fmap_cons. cbn [find_placeholder].
    destruct (Z.eqb_spec i idx) as [->|N].
    + rewrite decide_True by left. reflexivity.
    + rewrite IH. destruct (decide (idx ∈ l)).
      * rewrite decide_True by (right; assumption). reflexivity.
      * rewrite decide_False; [reflexivity|].
        intros H. apply elem_of_cons in H. destruct H; congruence.
Qed.

Lemma on_placeholder_replaced S sh idx f X Y :
  is_Some (find_placeholder idx sh) -> f X = Ok Y ->
  on_placeholder (length S) idx f
    (mk tpl (S ++ [{| slide_shapes := replace_placeholder idx X sh |}]))
  = (Ok tt, mk tpl (S ++ [{| slide_shapes := replace_placeholder idx Y sh |}])).
Proof.
  intros H F.
  rewrite (on_placeholder_last S _ idx f X Y (find_replace_eq idx X sh H) F).
  rewrite replace_replace. reflexivity.
Qed.

Lemma on_placeholder_replaced_raise S sh idx f X e :
  is_Some (find_placeholder idx sh) -> f X = Raise e ->
  on_placeholder (length S) idx f
    (mk tpl (S ++ [{| slide_shapes := replace_placeholder idx X sh |}]))
  = (Raise e, mk tpl (S ++ [{| slide_shapes := replace_placeholder idx X sh |}])).
Proof.
  intros H F. unfold on_placeholder. apply with_slide_last_raise. simpl.
  unfold alter_placeholder. rewrite (find_replace_eq idx X sh H). simpl.
  rewrite F. reflexivity.
Qed.

Lemma on_title_replaced_raise S sh f X e :
  is_Some (find_placeholder 0 sh) -> f X = Raise e ->
  on_title (length S) f
    (mk tpl (S ++ [{| slide_shapes := replace_placeholder 0 X sh |}]))
  = (Raise e, mk tpl (S ++ [{| slide_shapes := replace_placeholder 0 X sh |}])).
Proof.
  intros H F. unfold on_title. apply with_slide_last_raise. simpl.
  unfold alter_placeholder. rewrite (find_replace_eq 0 X sh H). simpl.
  rewrite F. reflexivity.
Qed.

Lemma on_title_replaced S sh f X Y :
  is_Some (find_placeholder 0 sh) -> f X = Ok Y ->
  on_title (length S) f
    (mk tpl (S ++ [{| slide_shapes := replace_placeholder 0 X sh |}]))
  = (Ok tt, mk tpl (S ++ [{| slide_shapes := replace_placeholder 0 Y sh |}])).
Proof.
  intros H F.
  rewrite (on_title_last S _ f X Y (find_replace_eq 0 X sh H) F).
  rewrite replace_replace. reflexivity.
Qed.

Lemma on_title_fresh S l t :
  0 ∈ l ->
  on_title (length S) (tf_set_text t) (mk tpl (S ++ [new_slide l]))
  = (Ok tt, mk tpl (S ++ [{| slide_shapes := titled l t |}])).
Proof.
  intros H. unfold new_slide.
  erewrite on_title_last; [reflexivity| |reflexivity].
  rewrite find_fresh, decide_True by exact H. reflexivity.
Qed.

Lemma find_titled_ne idx l t :
  idx <> 0 ->
  find_placeholder idx (titled l t)
  = if decide (idx ∈ l) then Some [empty_paragraph] else None.
Proof.
  intros N. unfold titled. rewrite find_replace_ne by exact N.
  apply find_fresh.
Qed.

(** The statements under [try] on a slide with the body placeholder: the
    text is set, and the size after it when the range check accepts it; when
    it does not, the check raises and the text stays, without a size. *)
Lemma fill_body_present S l t :
  1 ∈ l ->
  fill_body self (length S) (mk tpl (S ++ [{| slide_shapes := titled l t |}]))
  = (if size_ok (text_size_pt (settings self)) then Ok tt
     else Raise (font_size_error (100 * text_size_pt (settings self))),
     mk tpl (S ++ [{| slide_shapes :=
                    replace_placeholder 1
                      [body_paragraph self]
                      (titled l t) |}])).
Proof.
  intros H. unfold fill_body, body_paragraph.
  assert (F : find_placeholder 1 (titled l t) = Some [empty_paragraph]).
  { rewrite find_titled_ne, decide_True by (lia || exact H). reflexivity. }
  erewrite py_bind_Ok; [|eapply on_placeholder_last; [exact F|reflexivity]].
  erewrite py_bind_Ok;
    [|eapply on_placeholder_replaced; [rewrite F; eauto|reflexivity]].
  erewrite py_bind_Ok;
    [|eapply on_placeholder_replaced; [rewrite F; eauto|reflexivity]].
  destruct (size_ok (text_size_pt (settings self))) eqn:Z.
  - erewrite on_placeholder_replaced; [reflexivity|rewrite F; eauto|].
    cbn [on_paragraph0]. rewrite set_font_size_ok by exact Z. reflexivity.
  - erewrite on_placeholder_replaced_raise; [reflexivity|rewrite F; eauto|].
    cbn [on_paragraph0]. rewrite set_font_size_bad by exact Z. reflexivity.
Qed.

Lemma fill_body_missing S l t :
  1 ∉ l ->
  fill_body self (length S) (mk tpl (S ++ [{| slide_shapes := titled l t |}]))
  = (Raise (Exn KeyError "no placeholder on this slide with idx"),
     mk tpl (S ++ [{| slide_shapes := titled l t |}])).
Proof.
  intros H. unfold fill_body.
  erewrite py_bind_Raise; [reflexivity|].
  apply on_placeholder_missing.
  rewrite find_titled_ne, decide_False by (lia || exact H). reflexivity.
Qed.

(** One turn of the loop over the middle slides. *)
Lemma content_step l1 S i :
  tpl !! 1%nat = Some l1 -> 0 ∈ l1 ->
  (slide_layout ← get_layout 1;
   s ← add_slide slide_layout;
   _ ← on_title s (tf_set_text ("Slide " +:+ pretty (i - 1)));
   try_except (fill_body self s) (fun _ => mret tt)) (mk tpl S)
  = (Ok tt, mk tpl (S ++ [content_slide self l1 (i - 1)])).
Proof.
  intros L1 T1.
  erewrite py_bind_Ok; [|apply get_layout_mk; exact L1].
  erewrite py_bind_Ok; [|apply add_slide_mk].
  erewrite py_bind_Ok; [|apply on_title_fresh; exact T1].
  unfold try_except, content_slide.
  destruct (decide (1 ∈ l1)) as [H|H].
  - rewrite fill_body_present by exact H.
    destruct (size_ok (text_size_pt (settings self))); reflexivity.
  - rewrite fill_body_missing by exact H. reflexivity.
Qed.

Lemma content_loop l1 S n :
  tpl !! 1%nat = Some l1 -> 0 ∈ l1 ->
  for_each (py_range 2 n) (fun i =>
     slide_layout ← get_layout 1;
     s ← add_slide slide_layout;
     _ ← on_title s (tf_set_text ("Slide " +:+ pretty (i - 1)));
     try_except (fill_body self s) (fun _ => mret tt)) (mk tpl S)
  = (Ok tt,
     mk tpl (S ++ (content_slide self l1
                 <$> seqZ 1 (n - 2)))).
Proof.
  intros L1 T1. unfold py_range.
  destruct (Z.le_gt_cases (n - 2) 0) as [Hn|Hn].
  { rewrite !seqZ_nil by lia. simpl. rewrite app_nil_r. reflexivity. }
  edestruct (for_each_seqZ
    (fun i prs => prs = mk tpl (S ++ (content_slide self l1
                                    <$> seqZ 1 (i - 2)))))
    as (s' & E & I); [| |intros i s Hi ->|rewrite E, I].
  - lia.
  - rewrite seqZ_nil by lia. rewrite app_nil_r. reflexivity.
  - eexists. split; [apply (content_step l1); assumption|].
    rewrite <- app_assoc. do 2 f_equal.
    replace (i + 1 - 2) with (Z.of_nat (Datatypes.S (Z.to_nat (i - 2)))) by lia.
    rewrite seqZ_S, fmap_app. rewrite Z2Nat.id by lia.
    simpl. do 3 f_equal. lia.
  - replace (2 + (n - 2) - 2) with (n - 2) by lia. reflexivity.
Qed.

Lemma add_shape_last S shs sh :
  add_shape (length S) sh (mk tpl (S ++ [{| slide_shapes := shs |}]))
  = (Ok (length shs), mk tpl (S ++ [{| slide_shapes := shs ++ [sh] |}])).
Proof.
  unfold add_shape, mk. simpl.
  rewrite list_lookup_middle by reflexivity. simpl.
  rewrite insert_app_r_alt by lia. rewrite Nat.sub_diag. reflexivity.
Qed.

Lemma on_shape_last S shs x f x' :
  f x = Ok x' ->
  on_shape (length S) (length shs) f
    (mk tpl (S ++ [{| slide_shapes := shs ++ [x] |}]))
  = (Ok tt, mk tpl (S ++ [{| slide_shapes := shs ++ [x'] |}])).
Proof.
  intros F. unfold on_shape. apply with_slide_last. simpl.
  rewrite list_lookup_middle by reflexivity. rewrite F. simpl.
  rewrite insert_app_r_alt by lia. rewrite Nat.sub_diag. reflexivity.
Qed.

Lemma on_shape_last_raise S shs x f e :
  f x = Raise e ->
  on_shape (length S) (length shs) f
    (mk tpl (S ++ [{| slide_shapes := shs ++ [x] |}]))
  = (Raise e, mk tpl (S ++ [{| slide_shapes := shs ++ [x] |}])).
Proof.
  intros F. unfold on_shape. apply with_slide_last_raise. simpl.
  rewrite list_lookup_middle by reflexivity. rewrite F. reflexivity.
Qed.

(** The table of the final slide, row by row and cell by cell. *)
Section Grid_facts.
Context (rows cols : Z) (g : Z -> Z -> string).

Lemma grid_rows_start r : 0 <= r < rows -> grid_rows rows cols g r = grid_at rows cols g r 0.
Proof.
  intros H. unfold grid_rows, grid_at, partial_row. f_equal.
  replace (Z.to_nat (rows - r)) with (Datatypes.S (Z.to_nat (rows - r - 1))) by lia.
  rewrite Z.sub_0_r. reflexivity.
Qed.

Lemma seqZ_snoc n : 0 <= n -> seqZ 0 (n + 1) = seqZ 0 n ++ [n].
Proof.
  intros H. replace (n + 1) with (Z.of_nat (Datatypes.S (Z.to_nat n))) by lia.
  rewrite seqZ_S. rewrite Z2Nat.id by lia. reflexivity.
Qed.

Lemma grid_at_end r : 0 <= r < rows -> 0 <= cols -> grid_at rows cols g r cols = grid_rows rows cols g (r + 1).
Proof.
  intros H Hc. unfold grid_rows, grid_at, partial_row.
  rewrite seqZ_snoc by lia. rewrite fmap_app, <- app_assoc.
  rewrite Z.sub_diag. simpl. rewrite app_nil_r.
  do 3 f_equal. lia.
Qed.

Lemma set_cell_text_step tb r c txt :
  0 <= r < rows -> 0 <= c < cols -> pptx_escape txt = g r c ->
  set_cell_text r c txt (Table tb (grid_at rows cols g r c))
  = Ok (Table tb (grid_at rows cols g r (c + 1))).
Proof.
  intros Hr Hc E. unfold set_cell_text, grid_at. rewrite E.
  assert (Lr : length (full_row cols g <$> seqZ 0 r) = Z.to_nat r).
  { rewrite length_fmap, length_seqZ. reflexivity. }
  rewrite list_lookup_middle by (symmetry; exact Lr).
  assert (Lc : length (g r <$> seqZ 0 c) = Z.to_nat c).
  { rewrite length_fmap, length_seqZ. reflexivity. }
  assert (Lp : Z.of_nat (length (partial_row cols g r c)) = cols).
  { unfold partial_row. rewrite length_app, Lc, length_replicate. lia. }
  rewrite Lp.
  destruct (Z.leb_spec 0 r); [|lia]. destruct (Z.leb_spec 0 c); [|lia].
  destruct (Z.ltb_spec c cols); [|lia]. simpl andb. cbv iota.
  do 2 f_equal.
  rewrite insert_app_r_alt by lia. rewrite Lr, Nat.sub_diag. simpl.
  do 2 f_equal. unfold partial_row.
  rewrite insert_app_r_alt by lia. rewrite Lc, Nat.sub_diag.
  replace (Z.to_nat (cols - c)) with (Datatypes.S (Z.to_nat (cols - (c + 1)))) by lia.
  simpl. rewrite seqZ_snoc by lia. rewrite fmap_app, <- app_assoc. reflexivity.
Qed.
End Grid_facts.

Lemma lift_Ok {S0 A} (r : result A) (a : A) (s : S0) :
  r = Ok a -> lift r s = (Ok a, s).
Proof. intros ->. reflexivity. Qed.

Lemma cell_Ok ds r c :
  0 <= r -> 0 <= c ->
  cell ds (r + 1) (c + 1)
  = Ok (cell_value ds (Z.to_pos (r + 1)) (Z.to_pos (c + 1))).
Proof.
  intros Hr Hc. unfold cell.
  destruct (Z.ltb_spec (r + 1) 1); [lia|].
  destruct (Z.ltb_spec (c + 1) 1); [lia|]. reflexivity.
Qed.

Lemma fill_row S shs tb rows cols r :
  0 <= r < rows -> 0 <= cols ->
  for_each (py_range0 cols) (fun c =>
      value ← lift (cell (data_sheet self) (r + 1) (c + 1));
      on_shape (length S) (length shs)
        (set_cell_text r c (cell_text rf value)))
    (mk tpl (S ++ [{| slide_shapes :=
                    shs ++ [Table tb (grid_rows rows cols (cell_string rf self) r)] |}]))
  = (Ok tt,
     mk tpl (S ++ [{| slide_shapes :=
                    shs ++ [Table tb (grid_rows rows cols (cell_string rf self) (r + 1))] |}])).
Proof.
  intros Hr Hc. unfold py_range0, py_range. rewrite Z.sub_0_r.
  edestruct (for_each_seqZ
    (fun c prs => prs = mk tpl (S ++ [{| slide_shapes :=
        shs ++ [Table tb (grid_at rows cols (cell_string rf self) r c)] |}])))
    as (s' & E & I); [exact Hc| |intros c s Hi ->|rewrite E, I].
  - rewrite grid_rows_start by exact Hr. reflexivity.
  - eexists. split; [|reflexivity].
    erewrite py_bind_Ok; [|apply lift_Ok, cell_Ok; lia].
    apply on_shape_last. apply set_cell_text_step; [lia|lia|].
    unfold cell_string. reflexivity.
  - rewrite Z.add_0_l, grid_at_end by lia. reflexivity.
Qed.

Lemma fill_table S shs tb rows cols :
  0 <= rows -> 0 <= cols ->
  for_each (py_range0 rows) (fun r =>
    for_each (py_range0 cols) (fun c =>
      value ← lift (cell (data_sheet self) (r + 1) (c + 1));
      on_shape (length S) (length shs)
        (set_cell_text r c (cell_text rf value))))
    (mk tpl (S ++ [{| slide_shapes :=
          shs ++ [Table tb (replicate (Z.to_nat rows)
                              (replicate (Z.to_nat cols) ""%string))] |}]))
  = (Ok tt,
     mk tpl (S ++ [{| slide_shapes :=
          shs ++ [Table tb (full_row cols (cell_string rf self) <$> seqZ 0 rows)] |}])).
Proof.
  intros Hr Hc. unfold py_range0 at 1. unfold py_range. rewrite Z.sub_0_r.
  edestruct (for_each_seqZ
    (fun r prs => prs = mk tpl (S ++ [{| slide_shapes :=
        shs ++ [Table tb (grid_rows rows cols (cell_string rf self) r)] |}])))
    as (s' & E & I); [exact Hr| |intros r s Hi ->|rewrite E, I].
  - unfold grid_rows. rewrite seqZ_nil by lia. rewrite Z.sub_0_r. reflexivity.
  - eexists. split; [|reflexivity]. apply fill_row; lia.
  - unfold grid_rows. rewrite Z.add_0_l, Z.sub_diag. simpl.
    rewrite app_nil_r. reflexivity.
Qed.

Lemma footnote_box_eq tb :
  footnote_box tb
  = Ok {| box_left := box_left tb;
          box_top := box_top tb + box_height tb + 182880;
          box_width := box_width tb; box_height := 365760 |}.
Proof. reflexivity. Qed.

Lemma max_row_pos ds : 1 <= max_row ds.
Proof. unfold max_row. lia. Qed.

Lemma max_column_pos ds : 1 <= max_column ds.
Proof. unfold max_column. lia. Qed.

Lemma py_or_1_id x : 1 <= x -> py_or_1 x = x.
Proof. intros H. unfold py_or_1. destruct (Z.eqb_spec x 0); [lia|reflexivity]. Qed.

(** The table and the footnote, when the table is laid out: the footnote
    gets its size when the range check accepts it; when it does not, the
    check raises and the call ends there. *)
Lemma add_table_from_sheet_ok S shs tb :
  table_box (max_row (data_sheet self)) = Ok tb ->
  size_ok (py_max 8 (text_size_pt (settings self) - 2)) = true ->
  _add_table_from_sheet rf self (length S)
    (mk tpl (S ++ [{| slide_shapes := shs |}]))
  = (Ok tt,
     mk tpl (S ++ [{| slide_shapes :=
                    shs ++ [table_shape rf self tb; footnote_shape self tb] |}])).
Proof.
  intros T Z. unfold _add_table_from_sheet.
  pose proof (max_row_pos (data_sheet self)) as Hr.
  pose proof (max_column_pos (data_sheet self)) as Hc.
  rewrite !py_or_1_id by assumption.
  erewrite py_bind_Ok; [|apply lift_Ok; exact T].
  erewrite py_bind_Ok; [|apply add_shape_last].
  erewrite py_bind_Ok; [|apply fill_table; lia].
  erewrite py_bind_Ok; [|apply lift_Ok, footnote_box_eq].
  erewrite py_bind_Ok; [|apply add_shape_last].
  erewrite py_bind_Ok; [|apply on_shape_last; reflexivity].
  erewrite py_bind_Ok; [|apply on_shape_last; reflexivity].
  erewrite on_shape_last;
    [|cbn [on_text_frame on_paragraph0]; rewrite set_font_size_ok by exact Z;
      reflexivity].
  rewrite <- app_assoc. reflexivity.
Qed.

Lemma add_table_from_sheet_size S shs tb :
  table_box (max_row (data_sheet self)) = Ok tb ->
  size_ok (py_max 8 (text_size_pt (settings self) - 2)) = false ->
  fst (_add_table_from_sheet rf self (length S)
         (mk tpl (S ++ [{| slide_shapes := shs |}])))
  = Raise (font_size_error
             (100 * py_max 8 (text_size_pt (settings self) - 2))).
Proof.
  intros T Z. unfold _add_table_from_sheet.
  pose proof (max_row_pos (data_sheet self)) as Hr.
  pose proof (max_column_pos (data_sheet self)) as Hc.
  rewrite !py_or_1_id by assumption.
  erewrite py_bind_Ok; [|apply lift_Ok; exact T].
  erewrite py_bind_Ok; [|apply add_shape_last].
  erewrite py_bind_Ok; [|apply fill_table; lia].
  erewrite py_bind_Ok; [|apply lift_Ok, footnote_box_eq].
  erewrite py_bind_Ok; [|apply add_shape_last].
  erewrite py_bind_Ok; [|apply on_shape_last; reflexivity].
  erewrite py_bind_Ok; [|apply on_shape_last; reflexivity].
  erewrite on_shape_last_raise; [reflexivity|].
  cbn [on_text_frame on_paragraph0]. rewrite set_font_size_bad by exact Z.
  reflexivity.
Qed.

Lemma add_table_from_sheet_raise S shs e :
  table_box (max_row (data_sheet self)) = Raise e ->
  _add_table_from_sheet rf self (length S)
    (mk tpl (S ++ [{| slide_shapes := shs |}]))
  = (Raise e, mk tpl (S ++ [{| slide_shapes := shs |}])).
Proof.
  intros T. unfold _add_table_from_sheet.
  rewrite !py_or_1_id by (apply max_row_pos || apply max_column_pos).
  erewrite py_bind_Raise; [reflexivity|]. rewrite T. reflexivity.
Qed.

Lemma build_title_slide l5 :
  tpl !! 5%nat = Some l5 -> 0 ∈ l5 ->
  size_ok (title_size_pt (settings self)) = true ->
  (title_slide_layout ← get_layout 5;
   slide ← add_slide title_slide_layout;
   _ ← on_title slide (tf_set_text "Presentation");
   _ ← on_title slide
         (on_paragraph0 (set_font_size (Pt (title_size_pt (settings self)))));
   on_title slide
     (on_paragraph0 (set_font_color (title_color (settings self)))))
    (mk tpl [])
  = (Ok tt, mk tpl [title_slide self l5]).
Proof.
  intros L5 T5 Z.
  erewrite py_bind_Ok; [|apply get_layout_mk; exact L5].
  erewrite py_bind_Ok; [|apply add_slide_mk].
  assert (F : is_Some (find_placeholder 0 (slide_shapes (new_slide l5)))).
  { unfold new_slide; simpl. rewrite find_fresh, decide_True by exact T5. eauto. }
  erewrite py_bind_Ok; [|apply (on_title_fresh [] l5); exact T5].
  erewrite py_bind_Ok;
    [|apply (on_title_replaced []); [exact F|];
      cbn [on_paragraph0]; rewrite set_font_size_ok by exact Z; reflexivity].
  erewrite (on_title_replaced []); [reflexivity|exact F|reflexivity].
Qed.

(** A title size that the range check refuses ends the run at the title. *)
Lemma build_deck_title_size l5 :
  tpl !! 5%nat = Some l5 -> 0 ∈ l5 ->
  size_ok (title_size_pt (settings self)) = false ->
  fst (build_deck rf self (Presentation_new tpl))
  = Raise (font_size_error (100 * title_size_pt (settings self))).
Proof.
  intros L5 T5 Z. unfold build_deck.
  change (Presentation_new tpl) with (mk tpl []).
  erewrite py_bind_Ok; [|apply get_layout_mk; exact L5].
  erewrite py_bind_Ok; [|apply add_slide_mk].
  assert (F : is_Some (find_placeholder 0 (slide_shapes (new_slide l5)))).
  { unfold new_slide; simpl. rewrite find_fresh, decide_True by exact T5. eauto. }
  erewrite py_bind_Ok; [|apply (on_title_fresh [] l5); exact T5].
  erewrite py_bind_Raise; [reflexivity|].
  apply (on_title_replaced_raise []); [exact F|].
  cbn [on_paragraph0]. rewrite set_font_size_bad by exact Z. reflexivity.
Qed.

(** Up to the table: the title slide, the content slides and the titled
    final slide are built, whatever the body size. *)
Lemma build_deck_split l5 l1 :
  tpl !! 5%nat = Some l5 -> 0 ∈ l5 -> tpl !! 1%nat = Some l1 -> 0 ∈ l1 ->
  size_ok (title_size_pt (settings self)) = true ->
  build_deck rf self (Presentation_new tpl)
  = _add_table_from_sheet rf self
      (length (title_slide self l5
               :: (content_slide self l1
                     <$> seqZ 1 (slide_count (settings self) - 2))))
      (mk tpl ((title_slide self l5
                :: (content_slide self l1
                      <$> seqZ 1 (slide_count (settings self) - 2)))
               ++ [{| slide_shapes := titled l1 "Final Results" |}])).
Proof.
  intros L5 T5 L1 T1 Z. unfold build_deck.
  change (Presentation_new tpl) with (mk tpl []).
  pose proof (build_title_slide l5 L5 T5 Z) as E.
  unfold mbind, py_bind in E |- *.
  destruct (get_layout 5 (mk tpl [])) as [[a|e] s0]; [|discriminate E].
  destruct (add_slide a s0) as [[b|e] s1]; [|discriminate E].
  destruct (on_title b (tf_set_text "Presentation") s1) as [[[]|e] s2];
    [|discriminate E].
  destruct (on_title b (on_paragraph0 (set_font_size _)) s2) as [[[]|e] s3];
    [|discriminate E].
  rewrite E.
  pose proof (content_loop l1 [title_slide self l5] (slide_count (settings self)) L1 T1)
    as C.
  fold (@mbind (py Presentation) _) in C.
  unfold mbind, py_bind in C. rewrite C.
  rewrite (get_layout_mk 1 l1 _ L1). rewrite add_slide_mk.
  rewrite (on_title_fresh _ l1 _ T1). reflexivity.
Qed.

Lemma build_deck_eq l5 l1 :
  tpl !! 5%nat = Some l5 -> 0 ∈ l5 -> tpl !! 1%nat = Some l1 -> 0 ∈ l1 ->
  size_ok (title_size_pt (settings self)) = true ->
  size_ok (py_max 8 (text_size_pt (settings self) - 2)) = true ->
  build_deck rf self (Presentation_new tpl)
  = match table_box (max_row (data_sheet self)) with
    | Ok tb => (Ok tt, mk tpl (deck rf self l5 l1 tb))
    | Raise e =>
        (Raise e,
         mk tpl (title_slide self l5
             :: (content_slide self l1
                   <$> seqZ 1 (slide_count (settings self) - 2))
             ++ [{| slide_shapes := titled l1 "Final Results" |}]))
    end.
Proof.
  intros L5 T5 L1 T1 Z1 Z2.
  rewrite (build_deck_split l5 l1 L5 T5 L1 T1 Z1).
  destruct (table_box (max_row (data_sheet self))) as [tb|e] eqn:T.
  - rewrite (add_table_from_sheet_ok _ _ tb T Z2). reflexivity.
  - rewrite (add_table_from_sheet_raise _ _ e T). reflexivity.
Qed.

(** A footnote size that the range check refuses ends the run at the
    footnote, after the table is filled. *)
Lemma build_deck_footnote_size l5 l1 tb :
  tpl !! 5%nat = Some l5 -> 0 ∈ l5 -> tpl !! 1%nat = Some l1 -> 0 ∈ l1 ->
  size_ok (title_size_pt (settings self)) = true ->
  table_box (max_row (data_sheet self)) = Ok tb ->
  size_ok (py_max 8 (text_size_pt (settings self) - 2)) = false ->
  fst (build_deck rf self (Presentation_new tpl))
  = Raise (font_size_error
             (100 * py_max 8 (text_size_pt (settings self) - 2))).
Proof.
  intros L5 T5 L1 T1 Z1 T Z2.
  rewrite (build_deck_split l5 l1 L5 T5 L1 T1 Z1).
  apply (add_table_from_sheet_size _ _ tb T Z2).
Qed.

End Deck.

(** ** Hexadecimal colors *)

Lemma hex_digit_facts a :
  is_hex_digit a = true ->
  is_space a = false /\ is_int_space a = false
  /\ Ascii.eqb a "+" = false /\ Ascii.eqb a "-" = false
  /\ Ascii.eqb a "_" = false /\ Ascii.eqb a "x" = false
  /\ Ascii.eqb a "X" = false /\ Ascii.eqb a "#" = false
  /\ (0 <=? digit_value a) = true /\ (digit_value a <? 16) = true.
Proof.
  destruct a as [[] [] [] [] [] [] [] []]; vm_compute; intros H;
    first [discriminate H | repeat split].
Qed.

Lemma int_strip_hex_pair a b :
  is_int_space a = false -> is_int_space b = false ->
  int_strip (String a (String b "")) = String a (String b "").
Proof.
  intros Ha Hb. unfold int_strip. cbn [lstrip]. rewrite Ha.
  cbn [rstrip]. rewrite Hb. reflexivity.
Qed.

(** [int(s, 16)] of two hexadecimal digits. *)
Lemma int16_pair a b :
  is_hex_digit a = true -> is_hex_digit b = true ->
  py_int_of_string 16 (String a (String b "")) = Ok (hex_byte a b).
Proof.
  intros Ha Hb.
  destruct (hex_digit_facts a Ha) as (_ & Sa & Pa & Ma & Ua & _ & _ & _ & _ & Da).
  destruct (hex_digit_facts b Hb) as (_ & Sb & _ & _ & Ub & xb & Xb & _ & _ & Db).
  unfold py_int_of_string. rewrite int_strip_hex_pair by assumption.
  rewrite Pa, Ma. change (16 =? 16) with true. cbv iota.
  unfold skip_hex_prefix. rewrite xb, Xb. simpl orb. rewrite andb_false_r.
  rewrite Ua. cbn [parse_digits]. rewrite Ua, Ub, Da, Db.
  unfold hex_byte. f_equal. lia.
Qed.

Lemma hex_byte_range a b :
  is_hex_digit a = true -> is_hex_digit b = true ->
  (0 <=? hex_byte a b) && (hex_byte a b <=? 255) = true.
Proof.
  intros Ha Hb.
  destruct (hex_digit_facts a Ha) as (_ & _ & _ & _ & _ & _ & _ & _ & La & Da).
  destruct (hex_digit_facts b Hb) as (_ & _ & _ & _ & _ & _ & _ & _ & Lb & Db).
  apply Z.leb_le in La, Lb. apply Z.ltb_lt in Da, Db.
  unfold hex_byte. apply andb_true_iff. split; apply Z.leb_le; lia.
Qed.

(** A string of six hexadecimal digits is converted without exception. *)
Lemma rgb_of_hex6 s :
  fullmatch_hex6 s = true ->
  ('(r, g, b) ← _hex_to_rgb_tuple s; RGBColor_new r g b) = Ok (hex6_rgb s).
Proof.
  unfold fullmatch_hex6. intros H. apply andb_true_iff in H.
  destruct H as [L H].
  destruct s as [|c0 [|c1 [|c2 [|c3 [|c4 [|c5 [|c6 s]]]]]]]; try discriminate L.
  cbn [all_hex] in H.
  repeat (apply andb_true_iff in H; destruct H as [? H]).
  unfold _hex_to_rgb_tuple, slice2. cbn [substring].
  rewrite !int16_pair by assumption. cbn [mbind result_bind].
  unfold RGBColor_new. cbn [forallb].
  rewrite !hex_byte_range by assumption. reflexivity.
Qed.

Lemma default_rgb :
  ('(r, g, b) ← _hex_to_rgb_tuple default_color; RGBColor_new r g b)
  = Ok (RGB 31 78 121).
Proof. reflexivity. Qed.

(** [_parse_hex_color] in closed form: it always returns a color. *)
Lemma parse_hex_color_eq v :
  _parse_hex_color v
  = Ok match v with
       | None => RGB 31 78 121
       | Some s =>
           if String.eqb s "" || negb (fullmatch_hex6 (normalized s))
           then RGB 31 78 121
           else hex6_rgb (normalized s)
       end.
Proof.
  unfold _parse_hex_color. destruct v as [s|]; [|exact default_rgb].
  destruct (String.eqb s ""); [exact default_rgb|]. simpl orb.
  fold (normalized s).
  destruct (fullmatch_hex6 (normalized s)) eqn:F; [|exact default_rgb].
  simpl negb. cbv iota. apply rgb_of_hex6, F.
Qed.

(** ** Integer coercion of text *)

Lemma is_int_char_cases a :
  is_int_space a = true \/ Ascii.eqb a "_" = true \/ Ascii.eqb a "+" = true
  \/ Ascii.eqb a "-" = true \/ (digit_value a <? 10) = true ->
  is_int_char a = true.
Proof.
  unfold is_int_char. intros [H|[H|[H|[H|H]]]]; rewrite H;
    rewrite ?orb_true_r; reflexivity.
Qed.

Lemma has_non_int_char_cons a r :
  has_non_int_char (String a r) = true ->
  is_int_char a = true -> has_non_int_char r = true.
Proof. cbn [has_non_int_char]. intros H Hi. rewrite Hi in H. exact H. Qed.

Lemma lstrip_non_int s :
  has_non_int_char s = true ->
  has_non_int_char (lstrip is_int_space s) = true.
Proof.
  induction s as [|a r IH]; intros H; [exact H|]. cbn [lstrip].
  destruct (is_int_space a) eqn:Sa; [|exact H].
  apply IH, (has_non_int_char_cons a r H), is_int_char_cases. auto.
Qed.

Lemma rstrip_non_int s :
  has_non_int_char s = true ->
  has_non_int_char (rstrip is_int_space s) = true.
Proof.
  induction s as [|a r IH]; intros H; [exact H|]. cbn [rstrip].
  cbn [has_non_int_char] in H. apply orb_true_iff in H. destruct H as [H|H].
  - assert (Sa : is_int_space a = false).
    { destruct (is_int_space a) eqn:Sa; [|reflexivity].
      rewrite is_int_char_cases in H by auto. discriminate H. }
    destruct (rstrip is_int_space r); rewrite ?Sa; cbn [has_non_int_char];
      rewrite H;
      reflexivity.
  - specialize (IH H).
    destruct (rstrip is_int_space r) as [|b r']; [discriminate IH|].
    cbn [has_non_int_char] in IH |- *. rewrite IH. apply orb_true_r.
Qed.

Lemma parse_digits_non_int s :
  has_non_int_char s = true ->
  forall b acc, parse_digits 10 b acc s = None.
Proof.
  induction s as [|a r IH]; intros H b acc; [discriminate H|].
  cbn [parse_digits].
  destruct (Ascii.eqb a "_") eqn:Ua.
  - destruct b; [reflexivity|].
    apply IH, (has_non_int_char_cons a r H), is_int_char_cases. auto.
  - destruct (digit_value a <? 10) eqn:Da; [|reflexivity].
    apply IH, (has_non_int_char_cons a r H), is_int_char_cases. auto 6.
Qed.

(** A text with a character outside integer literals is no [int]. *)
Lemma int_of_non_int_string s :
  has_non_int_char s = true ->
  py_int_of_string 10 s = Raise (Exn ValueError "invalid literal for int()").
Proof.
  intros H. unfold py_int_of_string.
  assert (H1 : has_non_int_char (int_strip s) = true)
    by (apply rstrip_non_int, lstrip_non_int, H).
  destruct (int_strip s) as [|a r]; [discriminate H1|].
  change (10 =? 16) with false. cbv iota.
  destruct (Ascii.eqb a "+") eqn:Pa.
  { assert (H2 : has_non_int_char r = true)
      by (apply (has_non_int_char_cons a r H1), is_int_char_cases; auto 6).
    destruct r as [|c r]; [discriminate H2|].
    rewrite (parse_digits_non_int _ H2). destruct (Ascii.eqb c "_"); reflexivity. }
  destruct (Ascii.eqb a "-") eqn:Ma.
  { assert (H2 : has_non_int_char r = true)
      by (apply (has_non_int_char_cons a r H1), is_int_char_cases; auto 6).
    destruct r as [|c r]; [discriminate H2|].
    rewrite (parse_digits_non_int _ H2). destruct (Ascii.eqb c "_"); reflexivity. }
  rewrite (parse_digits_non_int _ H1). destruct (Ascii.eqb a "_"); reflexivity.
Qed.

Lemma non_numeric_raises v :
  non_numeric v = true ->
  exists e, py_int v = Raise e
            /\ (exn_cls e = ValueError \/ exn_cls e = TypeError).
Proof.
  destruct v as [|b|n|f|s|d]; cbn [non_numeric]; intros H;
    try discriminate H.
  - eexists. split; [reflexivity|]. right. reflexivity.
  - eexists. split; [apply int_of_non_int_string, H|]. left. reflexivity.
  - eexists. split; [reflexivity|]. right. reflexivity.
Qed.

(** ** Reading the settings and constructing the converter *)

Section Construction.
Context (rf : Binary64.float -> string) (tpl : list SlideLayout).

(** [_read_settings] by cases on the three coercions. *)
Lemma read_settings_eq sheet :
  _read_settings rf sheet
  = match py_int (A2 sheet) with
    | Raise e => Raise e
    | Ok n =>
        match py_int (B2 sheet) with
        | Raise e => Raise e
        | Ok t =>
            match py_int (D2 sheet) with
            | Raise e => Raise e
            | Ok b =>
                if n <? 2 then Raise slide_count_too_small
                else
                  color ← _parse_hex_color
                            (if truthy (C2 sheet)
                             then Some (py_str rf (C2 sheet)) else None);
                  Ok {| slide_count := n; title_size_pt := t;
                        title_color := color; text_size_pt := b |}
            end
        end
    end.
Proof.
  unfold _read_settings.
  destruct (py_int (A2 sheet)); [|reflexivity].
  destruct (py_int (B2 sheet)); [|reflexivity].
  destruct (py_int (D2 sheet)); reflexivity.
Qed.

Lemma read_settings_Ok sheet st :
  _read_settings rf sheet = Ok st ->
  py_int (A2 sheet) = Ok (slide_count st)
  /\ py_int (B2 sheet) = Ok (title_size_pt st)
  /\ py_int (D2 sheet) = Ok (text_size_pt st)
  /\ 2 <= slide_count st.
Proof.
  rewrite read_settings_eq.
  destruct (py_int (A2 sheet)) as [n|]; [|discriminate].
  destruct (py_int (B2 sheet)) as [t|]; [|discriminate].
  destruct (py_int (D2 sheet)) as [b|]; [|discriminate].
  destruct (Z.ltb_spec n 2); [discriminate|].
  rewrite parse_hex_color_eq. intros [= <-]. simpl. repeat split. lia.
Qed.

(** [__init__] by cases on the sheets of the workbook. *)
Lemma init_eq excel pptx fs wb :
  xlsx_files fs !! excel = Some wb ->
  __init__ rf excel pptx fs
  = match worksheets wb with
    | sheet0 :: sheet1 :: _ =>
        match _read_settings rf sheet0 with
        | Ok st =>
            (Ok {| excel_file := excel; pptx_file := pptx; workbook := wb;
                   settings_sheet := sheet0; data_sheet := sheet1;
                   settings := st |}, fs)
        | Raise e => (Raise e, fs)
        end
    | _ => (Raise too_few_sheets, fs)
    end.
Proof.
  intros E. unfold __init__.
  erewrite py_bind_Ok; [|unfold load_workbook; rewrite E; reflexivity].
  destruct (worksheets wb) as [|s0 [|s1 rest]]; reflexivity.
Qed.

Lemma main_eq excel pptx fs :
  main rf tpl excel pptx fs
  = match __init__ rf excel pptx fs with
    | (Ok converter, fs') => create_presentation rf tpl converter fs'
    | (Raise e, fs') => (Raise e, fs')
    end.
Proof. reflexivity. Qed.

(** A run on a well-formed input saves the deck in closed form. *)
Lemma create_presentation_ok self fs l5 l1 tb :
  tpl !! 5%nat = Some l5 -> 0 ∈ l5 -> tpl !! 1%nat = Some l1 -> 0 ∈ l1 ->
  size_ok (title_size_pt (settings self)) = true ->
  size_ok (py_max 8 (text_size_pt (settings self) - 2)) = true ->
  table_box (max_row (data_sheet self)) = Ok tb ->
  create_presentation rf tpl self fs
  = (Ok tt, {| xlsx_files := xlsx_files fs;
               pptx_files := <[pptx_file self := deck rf self l5 l1 tb]>
                               (pptx_files fs) |}).
Proof.
  intros L5 T5 L1 T1 Z1 Z2 T. unfold create_presentation.
  rewrite (build_deck_eq tpl rf self l5 l1 L5 T5 L1 T1 Z1 Z2), T. reflexivity.
Qed.

(** A run that the range check of a font size ends saves nothing. *)
Lemma create_presentation_raise self fs e :
  fst (build_deck rf self (Presentation_new tpl)) = Raise e ->
  create_presentation rf tpl self fs = (Raise e, fs).
Proof.
  unfold create_presentation.
  destruct (build_deck rf self (Presentation_new tpl)) as [[[]|e'] prs];
    [discriminate|].
  intros [= ->]. reflexivity.
Qed.

Lemma main_ok excel pptx fs wb sheet0 sheet1 rest st l5 l1 tb :
  xlsx_files fs !! excel = Some wb ->
  worksheets wb = sheet0 :: sheet1 :: rest ->
  _read_settings rf sheet0 = Ok st ->
  tpl !! 5%nat = Some l5 -> 0 ∈ l5 -> tpl !! 1%nat = Some l1 -> 0 ∈ l1 ->
  size_ok (title_size_pt st) = true ->
  size_ok (py_max 8 (text_size_pt st - 2)) = true ->
  table_box (max_row sheet1) = Ok tb ->
  let self := {| excel_file := excel; pptx_file := pptx; workbook := wb;
                 settings_sheet := sheet0; data_sheet := sheet1;
                 settings := st |} in
  main rf tpl excel pptx fs
  = (Ok tt, {| xlsx_files := xlsx_files fs;
               pptx_files := <[pptx := deck rf self l5 l1 tb]>
                               (pptx_files fs) |}).
Proof.
  intros E W R L5 T5 L1 T1 Z1 Z2 T self.
  rewrite main_eq, (init_eq excel pptx fs wb E), W, R.
  fold self. apply (create_presentation_ok self fs l5 l1 tb); assumption.
Qed.
End Construction.

(** ** Observations of the slides *)

Lemma find_placeholder_app idx l l' tf :
  find_placeholder idx l = Some tf -> find_placeholder idx (l ++ l') = Some tf.
Proof.
  induction l as [|[i tf0|b c|b tf0] l IH]; simpl; try exact IH.
  - discriminate.
  - destruct (i =? idx); [trivial|exact IH].
Qed.

Lemma replace_placeholder_placeholders idx tf l :
  forallb is_placeholder l = true ->
  forallb is_placeholder (replace_placeholder idx tf l) = true.
Proof.
  induction l as [|[i tf0|b c|b tf0] l IH]; simpl; try discriminate.
  - reflexivity.
  - intros H. destruct (i =? idx); simpl; [exact H|apply IH, H].
Qed.

Lemma new_slide_placeholders l :
  forallb is_placeholder (slide_shapes (new_slide l)) = true.
Proof. induction l as [|i l IH]; [reflexivity|exact IH]. Qed.

Lemma titled_placeholders l t : forallb is_placeholder (titled l t) = true.
Proof. apply replace_placeholder_placeholders, new_slide_placeholders. Qed.

Lemma filter_placeholders l :
  forallb is_placeholder l = true ->
  List.filter is_table l = [] /\ List.filter is_text_box l = [].
Proof.
  induction l as [|[i tf0|b c|b tf0] l IH]; simpl; try discriminate.
  - split; reflexivity.
  - exact IH.
Qed.

Lemma titled_title l t :
  0 ∈ l -> find_placeholder 0 (titled l t) = Some [Par t None None].
Proof.
  intros H. unfold titled. apply find_replace_eq.
  unfold new_slide; simpl. rewrite find_fresh, decide_True by exact H. eauto.
Qed.

Section Observations.
Context (rf : Binary64.float -> string) (self : ExcelToPPT).

Lemma slide_title_title_slide l5 :
  0 ∈ l5 ->
  slide_title (title_slide self l5)
  = Some [Par "Presentation" (Some (Pt (title_size_pt (settings self))))
            (Some (title_color (settings self)))].
Proof.
  intros H. unfold slide_title, title_slide. cbn [slide_shapes].
  apply find_replace_eq. unfold new_slide; simpl.
  rewrite find_fresh, decide_True by exact H. eauto.
Qed.

Lemma slide_title_content l1 k :
  0 ∈ l1 ->
  slide_title (content_slide self l1 k)
  = Some [Par ("Slide " +:+ pretty k) None None].
Proof.
  intros H. unfold slide_title, content_slide. cbn [slide_shapes].
  destruct (decide (1 ∈ l1)).
  - rewrite find_replace_ne by lia. apply titled_title, H.
  - apply titled_title, H.
Qed.

Lemma slide_body_content l1 k :
  slide_body (content_slide self l1 k)
  = if decide (1 ∈ l1) then Some [body_paragraph self] else None.
Proof.
  unfold slide_body, content_slide. cbn [slide_shapes].
  destruct (decide (1 ∈ l1)) as [H|H].
  - apply find_replace_eq. rewrite find_titled_ne by lia.
    rewrite decide_True by exact H. eauto.
  - rewrite find_titled_ne by lia. rewrite decide_False by exact H.
    reflexivity.
Qed.

Lemma slide_title_final l1 tb :
  0 ∈ l1 ->
  slide_title (final_slide rf self l1 tb)
  = Some [Par "Final Results" None None].
Proof.
  intros H. unfold slide_title, final_slide. cbn [slide_shapes].
  apply find_placeholder_app, titled_title, H.
Qed.

Lemma slide_tables_final l1 tb :
  slide_tables (final_slide rf self l1 tb) = [table_shape rf self tb].
Proof.
  unfold slide_tables, final_slide. cbn [slide_shapes].
  rewrite List.filter_app.
  rewrite (proj1 (filter_placeholders _ (titled_placeholders l1 _))).
  reflexivity.
Qed.

Lemma slide_text_boxes_final l1 tb :
  slide_text_boxes (final_slide rf self l1 tb) = [footnote_shape self tb].
Proof.
  unfold slide_text_boxes, final_slide. cbn [slide_shapes].
  rewrite List.filter_app.
  rewrite (proj2 (filter_placeholders _ (titled_placeholders l1 _))).
  reflexivity.
Qed.

(** The deck slide by slide. *)
Lemma deck_length l5 l1 tb :
  2 <= slide_count (settings self) ->
  Z.of_nat (length (deck rf self l5 l1 tb)) = slide_count (settings self).
Proof.
  intros H. unfold deck. cbn [length].
  rewrite length_app, length_fmap, length_seqZ. cbn [length]. lia.
Qed.

Lemma deck_lookup_content l5 l1 tb k :
  1 <= k <= slide_count (settings self) - 2 ->
  deck rf self l5 l1 tb !! Z.to_nat k = Some (content_slide self l1 k).
Proof.
  intros H. unfold deck.
  replace (Z.to_nat k) with (S (Z.to_nat (k - 1))) by lia.
  rewrite lookup_cons. rewrite lookup_app_l
    by (rewrite length_fmap, length_seqZ; lia).
  rewrite list_lookup_fmap, lookup_seqZ_lt by lia. simpl. do 2 f_equal. lia.
Qed.

(** The table cell by cell. *)
Lemma table_cells_length :
  Z.of_nat (length (table_cells rf self)) = max_row (data_sheet self).
Proof.
  unfold table_cells. rewrite length_fmap, length_seqZ.
  pose proof (max_row_pos (data_sheet self)). lia.
Qed.

Lemma table_cells_lookup r c :
  0 <= r < max_row (data_sheet self) ->
  0 <= c < max_column (data_sheet self) ->
  table_cells rf self !! Z.to_nat r ≫= (.!! Z.to_nat c)
  = Some (pptx_escape
            (cell_text rf (cell_value (data_sheet self)
                             (Z.to_pos (r + 1)) (Z.to_pos (c + 1))))).
Proof.
  intros Hr Hc. unfold table_cells, full_row.
  rewrite list_lookup_fmap, lookup_seqZ_lt by lia. simpl.
  rewrite list_lookup_fmap, lookup_seqZ_lt by lia. simpl.
  unfold cell_string. rewrite !Z2Nat.id by lia. reflexivity.
Qed.

Lemma table_cells_row_length row :
  row ∈ table_cells rf self ->
  Z.of_nat (length row) = max_column (data_sheet self).
Proof.
  unfold table_cells. intros H. apply list_elem_of_fmap in H.
  destruct H as (r & -> & _). unfold full_row.
  rewrite length_fmap, length_seqZ.
  pose proof (max_column_pos (data_sheet self)). lia.
Qed.
End Observations.

(** ** The occupied rectangle of a sheet *)

Lemma foldr_max_bound (l : list positive) x :
  x ∈ l -> (x <= foldr Pos.max 1 l)%positive.
Proof.
  induction l as [|y l IH]; intros H; [inversion H|].
  apply elem_of_cons in H. simpl. destruct H as [->|H]; [lia|].
  specialize (IH H). lia.
Qed.

Lemma foldr_max_attained (l : list positive) :
  foldr Pos.max 1%positive l = 1%positive \/ foldr Pos.max 1%positive l ∈ l.
Proof.
  induction l as [|y l IH]; [left; reflexivity|]. simpl.
  destruct (Pos.max_spec y (foldr Pos.max 1%positive l)) as [[_ ->]|[_ ->]].
  - destruct IH as [IH|IH]; [left; exact IH|right; right; exact IH].
  - right. left.
Qed.

Lemma max_row_bound ws r c v :
  ws_cells ws !! (r, c) = Some v ->
  Z.pos r <= max_row ws /\ Z.pos c <= max_column ws.
Proof.
  intros H. apply elem_of_map_to_list in H.
  unfold max_row, max_column. split.
  - apply Pos2Z.pos_le_pos, foldr_max_bound, list_elem_of_fmap.
    exists ((r, c), v). split; [reflexivity|exact H].
  - apply Pos2Z.pos_le_pos, foldr_max_bound, list_elem_of_fmap.
    exists ((r, c), v). split; [reflexivity|exact H].
Qed.

Lemma max_row_attained ws :
  max_row ws = 1
  \/ exists c v, ws_cells ws !! (Z.to_pos (max_row ws), c) = Some v.
Proof.
  unfold max_row.
  destruct (foldr_max_attained ((fun kv => kv.1.1) <$> map_to_list (ws_cells ws)))
    as [E|E]; [left; rewrite E; reflexivity|right].
  apply list_elem_of_fmap in E. destruct E as ([[r c] v] & E & H).
  simpl in E. exists c, v. rewrite Pos2Z.id, E.
  apply elem_of_map_to_list, H.
Qed.

Lemma max_column_attained ws :
  max_column ws = 1
  \/ exists r v, ws_cells ws !! (r, Z.to_pos (max_column ws)) = Some v.
Proof.
  unfold max_column.
  destruct (foldr_max_attained ((fun kv => kv.1.2) <$> map_to_list (ws_cells ws)))
    as [E|E]; [left; rewrite E; reflexivity|right].
  apply list_elem_of_fmap in E. destruct E as ([[r c] v] & E & H).
  simpl in E. exists r, v. rewrite Pos2Z.id, E.
  apply elem_of_map_to_list, H.
Qed.

(** ** The model on sample inputs

    Values that CPython returns for the same expressions. *)

Example int_of_literals :
  py_int_of_string 10 " 12_3 " = Ok 123
  /\ py_int_of_string 10 "-5" = Ok (-5)
  /\ py_int_of_string 10 "+5" = Ok 5
  /\ py_int_of_string 16 "0x_ff" = Ok 255
  /\ py_int_of_string 16 "-0x1f" = Ok (-31)
  /\ py_int_of_string 16 "0b1" = Ok 177
  /\ py_int_of_string 16 " f" = Ok 15.
Proof. repeat split; reflexivity. Qed.

Example int_of_non_literals :
  Forall (fun s => py_int_of_string 10 s
                   = Raise (Exn ValueError "invalid literal for int()"))
    [ ""; "1__2"; "_1"; "1_"; "+ 5"; "--5"; "5 5"; "0x5"; "3.5"; "four";
      String (ascii_of_nat 31) "5" ]%string
  /\ Forall (fun s => py_int_of_string 16 s
                      = Raise (Exn ValueError "invalid literal for int()"))
       [ "0x"; "0_x1"; "0x__1"; "_ff"; "g" ]%string.
Proof. split; repeat constructor. Qed.

Example strip_of_blanks :
  strip "  #1F4E79 " = "#1F4E79"%string
  /\ strip (String (ascii_of_nat 31) "ab") = "ab"%string
  /\ int_strip (String (ascii_of_nat 31) "ab") = String (ascii_of_nat 31) "ab".
Proof. repeat split; reflexivity. Qed.

Example float_constants :
  Binary64.literal 35 100 = S754_finite false 0x16666666666666 (-54)
  /\ Binary64.literal 49 10 = S754_finite false 0x1399999999999A (-50)
  /\ Binary64.mul (Binary64.literal 35 100) (Binary64.of_Z 3)
     = S754_finite false 0x10CCCCCCCCCCCC (-52)
  /\ Binary64.int_of_float (Binary64.literal (-37) 10) = Ok (-3).
Proof. repeat split; reflexivity. Qed.

Example table_heights :
  (fun rows => b ← table_box rows; Ok (box_height b)) <$> [1; 2; 3; 14; 15; 50]
  = Ok <$> [320040; 640080; 960119; 4480559; 4480560; 4480560].
Proof. vm_compute. reflexivity. Qed.

Example inches_of_constants :
  Inches <$> [Binary64.literal 7 10; Binary64.literal 16 10;
              Binary64.literal 2 10; Binary64.literal 4 10;
              Binary64.literal 75 10]
  = Ok <$> [640080; 1463040; 182880; 365760; 6858000].
Proof. vm_compute. reflexivity. Qed.

(** ** Runs on well-formed inputs *)

(** The converter of the scenario is the one the constructor returns. *)
Lemma example_converter_constructed :
  __init__ example_repr "data.xlsx" "presentation.pptx" example_fs
  = (Ok example_converter, example_fs).
Proof. vm_compute. reflexivity. Qed.

Lemma table_box_total rows :
  1 <= rows < 2 ^ 1023 ->
  exists h,
    table_box rows = Ok {| box_left := 640080; box_top := 1463040;
                           box_width := 7863840; box_height := h |}
    /\ 0 <= h <= CAP_EMU.
Proof.
  intros [H1 H2].
  destruct (table_box_cases rows H1) as [(r & h & _ & _ & T & B & _)|[B _]];
    [|lia].
  exists h. split; [exact T|]. unfold ROW_EMU, CAP_EMU in *. lia.
Qed.

(** The sizes of the settings that the range check accepts: a title size
    of 1pt to 4000pt, and a body size whose footnote size,
    [max(8, text_size_pt - 2)], is at most 4000pt. *)
Lemma sizes_accepted t b :
  1 <= t <= 4000 -> b <= 4002 ->
  size_ok t = true /\ size_ok (py_max 8 (b - 2)) = true.
Proof.
  intros Ht Hb. unfold size_ok, py_max. split.
  - apply andb_true_iff. split; apply Z.leb_le; lia.
  - destruct (Z.gtb_spec (b - 2) 8); apply andb_true_iff;
      split; apply Z.leb_le; lia.
Qed.

Lemma sizes_refused t b :
  size_ok t = true -> size_ok (py_max 8 (b - 2)) = true ->
  1 <= t <= 4000 /\ b <= 4002.
Proof.
  unfold size_ok, py_max. intros Ht Hb.
  apply andb_true_iff in Ht. destruct Ht as [H1 H2].
  apply Z.leb_le in H1, H2. split; [lia|].
  apply andb_true_iff in Hb. destruct Hb as [_ H3]. apply Z.leb_le in H3.
  destruct (Z.gtb_spec (b - 2) 8); lia.
Qed.

(** A run on a well-formed input: the deck that is saved. *)
Lemma run_saves_deck rf tpl self fs l5 l1 :
  tpl !! 5%nat = Some l5 -> 0 ∈ l5 -> tpl !! 1%nat = Some l1 -> 0 ∈ l1 ->
  max_row (data_sheet self) < 2 ^ 1023 ->
  1 <= title_size_pt (settings self) <= 4000 ->
  text_size_pt (settings self) <= 4002 ->
  exists tb fs',
    table_box (max_row (data_sheet self)) = Ok tb
    /\ create_presentation rf tpl self fs = (Ok tt, fs')
    /\ xlsx_files fs' = xlsx_files fs
    /\ pptx_files fs' !! pptx_file self = Some (deck rf self l5 l1 tb).
Proof.
  intros L5 T5 L1 T1 R Zt Zb.
  destruct (sizes_accepted _ _ Zt Zb) as [Z1 Z2].
  destruct (table_box_total (max_row (data_sheet self))) as (h & T & _).
  { pose proof (max_row_pos (data_sheet self)). lia. }
  eexists. eexists. split; [exact T|].
  split; [apply (create_presentation_ok rf tpl self fs l5 l1 _
                   L5 T5 L1 T1 Z1 Z2 T)|].
  split; [reflexivity|]. cbn [pptx_files]. apply lookup_insert_eq.
Qed.

(** A run with a size that the range check refuses raises the
    [ValueError] of the check and saves nothing; so a run that saves a deck
    has sizes that the check accepts. *)
Lemma run_refused rf tpl self fs l5 l1 :
  tpl !! 5%nat = Some l5 -> 0 ∈ l5 -> tpl !! 1%nat = Some l1 -> 0 ∈ l1 ->
  max_row (data_sheet self) < 2 ^ 1023 ->
  ~ (1 <= title_size_pt (settings self) <= 4000
     /\ text_size_pt (settings self) <= 4002) ->
  exists sz,
    create_presentation rf tpl self fs = (Raise (font_size_error sz), fs).
Proof.
  intros L5 T5 L1 T1 R N.
  destruct (size_ok (title_size_pt (settings self))) eqn:Z1.
  - destruct (size_ok (py_max 8 (text_size_pt (settings self) - 2))) eqn:Z2.
    { exfalso. apply N. apply sizes_refused; assumption. }
    destruct (table_box_total (max_row (data_sheet self))) as (h & T & _).
    { pose proof (max_row_pos (data_sheet self)). lia. }
    eexists. apply create_presentation_raise.
    apply (build_deck_footnote_size tpl rf self l5 l1 _ L5 T5 L1 T1 Z1 T Z2).
  - eexists. apply create_presentation_raise.
    apply (build_deck_title_size tpl rf self l5 L5 T5 Z1).
Qed.

Lemma run_Ok_sizes rf tpl self fs fs' l5 l1 :
  tpl !! 5%nat = Some l5 -> 0 ∈ l5 -> tpl !! 1%nat = Some l1 -> 0 ∈ l1 ->
  max_row (data_sheet self) < 2 ^ 1023 ->
  create_presentation rf tpl self fs = (Ok tt, fs') ->
  1 <= title_size_pt (settings self) <= 4000
  /\ text_size_pt (settings self) <= 4002.
Proof.
  intros L5 T5 L1 T1 R E.
  destruct (decide (1 <= title_size_pt (settings self) <= 4000
                    /\ text_size_pt (settings self) <= 4002)) as [H|H];
    [exact H|].
  destruct (run_refused rf tpl self fs l5 l1 L5 T5 L1 T1 R H) as [sz E'].
  rewrite E in E'. discriminate E'.
Qed.

(** The script end to end: from the files to the saved deck. *)
Lemma script_saves_deck rf tpl fs excel pptx wb sheet0 sheet1 rest st l5 l1 :
  xlsx_files fs !! excel = Some wb ->
  worksheets wb = sheet0 :: sheet1 :: rest ->
  _read_settings rf sheet0 = Ok st ->
  tpl !! 5%nat = Some l5 -> 0 ∈ l5 -> tpl !! 1%nat = Some l1 -> 0 ∈ l1 ->
  max_row sheet1 < 2 ^ 1023 ->
  1 <= title_size_pt st <= 4000 -> text_size_pt st <= 4002 ->
  exists d fs',
    main rf tpl excel pptx fs = (Ok tt, fs')
    /\ xlsx_files fs' = xlsx_files fs
    /\ pptx_files fs' !! pptx = Some d
    /\ py_int (A2 sheet0) = Ok (slide_count st)
    /\ 2 <= slide_count st
    /\ Z.of_nat (length d) = slide_count st.
Proof.
  intros E W R L5 T5 L1 T1 B Zt Zb.
  destruct (sizes_accepted _ _ Zt Zb) as [Z1 Z2].
  destruct (read_settings_Ok rf sheet0 st R) as (A & _ & _ & N).
  destruct (table_box_total (max_row sheet1)) as (h & T & _).
  { pose proof (max_row_pos sheet1). lia. }
  pose proof (main_ok rf tpl excel pptx fs wb sheet0 sheet1 rest st l5 l1 _
                E W R L5 T5 L1 T1 Z1 Z2 T) as M.
  cbv zeta in M. eexists. eexists. split; [exact M|].
  split; [reflexivity|]. split; [apply lookup_insert_eq|].
  split; [exact A|]. split; [exact N|].
  apply deck_length. exact N.
Qed.

(** * The claims of the specification *)

(** C1: for every well-formed input whose settings give [slide_count = N]
    with [N >= 2], the deck that [create_presentation] saves has exactly
    [N] slides: the title slide, then [N - 2] content slides (none when
    [N = 2]), then the final results slide.  Well-formed: the template has
    the layouts 5 and 1 with a title, the title size is one that the range
    check of a font size accepts (1pt to 4000pt) and so is the footnote
    size [max(8, text_size_pt - 2)]; with other sizes no deck is saved. *)
Theorem deck_has_slide_count_slides rf tpl self fs l5 l1 :
  tpl !! 5%nat = Some l5 -> 0 ∈ l5 -> tpl !! 1%nat = Some l1 -> 0 ∈ l1 ->
  max_row (data_sheet self) < 2 ^ 1023 ->
  1 <= title_size_pt (settings self) <= 4000 ->
  text_size_pt (settings self) <= 4002 ->
  2 <= slide_count (settings self) ->
  exists first middle final fs',
    create_presentation rf tpl self fs = (Ok tt, fs')
    /\ pptx_files fs' !! pptx_file self = Some (first :: middle ++ [final])
    /\ Z.of_nat (length (first :: middle ++ [final])) = slide_count (settings self)
    /\ Z.of_nat (length middle) = slide_count (settings self) - 2
    /\ slide_title first
       = Some [Par "Presentation" (Some (Pt (title_size_pt (settings self))))
                 (Some (title_color (settings self)))]
    /\ (forall k sl, middle !! k = Some sl ->
          slide_title sl
          = Some [Par ("Slide " +:+ pretty (Z.of_nat k + 1)) None None]
          /\ slide_tables sl = [])
    /\ slide_title final = Some [Par "Final Results" None None]
    /\ length (slide_tables final) = 1%nat.
Proof.
  intros L5 T5 L1 T1 R Zt Zb N.
  destruct (run_saves_deck rf tpl self fs l5 l1 L5 T5 L1 T1 R Zt Zb)
    as (tb & fs' & _ & E & _ & D).
  exists (title_slide self l5),
    (content_slide self l1 <$> seqZ 1 (slide_count (settings self) - 2)),
    (final_slide rf self l1 tb), fs'.
  split; [exact E|]. split; [exact D|].
  split; [apply (deck_length rf self l5 l1 tb N)|].
  split; [rewrite length_fmap, length_seqZ; lia|].
  split; [apply slide_title_title_slide, T5|].
  split; [|split; [apply slide_title_final, T1|]].
  - intros k sl H. rewrite list_lookup_fmap in H.
    destruct (seqZ 1 (slide_count (settings self) - 2) !! k) as [i|] eqn:Ei;
      [|discriminate H].
    apply lookup_seqZ in Ei. destruct Ei as [-> _].
    injection H as <-. rewrite Z.add_comm. split; [apply slide_title_content, T1|].
    unfold slide_tables, content_slide. cbn [slide_shapes].
    apply filter_placeholders.
    destruct (decide (1 ∈ l1));
      [apply replace_placeholder_placeholders|]; apply titled_placeholders.
  - rewrite slide_tables_final. reflexivity.
Qed.

Lemma deck_has_slide_count_slides_witness :
  default_template !! 5%nat = Some [0] /\ 0 ∈ [0]
  /\ 2 <= slide_count (settings example_converter)
  /\ exists first middle final fs',
       create_presentation example_repr default_template example_converter
         example_fs = (Ok tt, fs')
       /\ pptx_files fs' !! pptx_file example_converter
          = Some (first :: middle ++ [final])
       /\ Z.of_nat (length (first :: middle ++ [final])) = 4.
Proof.
  split; [reflexivity|]. split; [apply list_elem_of_here|].
  split; [vm_compute; discriminate|].
  destruct (deck_has_slide_count_slides example_repr default_template
              example_converter example_fs [0] [0; 1])
    as (first & middle & final & fs' & E & D & L & _).
  - reflexivity.
  - apply list_elem_of_here.
  - reflexivity.
  - apply list_elem_of_here.
  - vm_compute. reflexivity.
  - vm_compute. split; discriminate.
  - vm_compute. discriminate.
  - vm_compute. discriminate.
  - exists first, middle, final, fs'. split; [exact E|]. split; [exact D|].
    exact L.
Defined.

Lemma strip_no_space s : no_space s = true -> strip s = s.
Proof.
  intros H. unfold strip.
  assert (L : lstrip is_space s = s).
  { destruct s as [|a r]; [reflexivity|]. cbn [lstrip no_space] in *.
    apply andb_true_iff in H. destruct H as [H _].
    destruct (is_space a); [discriminate H|reflexivity]. }
  rewrite L. clear L. induction s as [|a r IH]; [reflexivity|].
  cbn [no_space] in H. apply andb_true_iff in H. destruct H as [Ha Hr].
  cbn [rstrip]. rewrite (IH Hr).
  destruct r; [|reflexivity]. destruct (is_space a); [discriminate Ha|reflexivity].
Qed.

Lemma all_hex_no_space s : all_hex s = true -> no_space s = true.
Proof.
  induction s as [|a r IH]; [reflexivity|]. cbn [all_hex no_space].
  intros H. apply andb_true_iff in H. destruct H as [Ha Hr].
  destruct (hex_digit_facts a Ha) as (-> & _). rewrite (IH Hr). reflexivity.
Qed.

Lemma normalized_hex6 s :
  fullmatch_hex6 s = true ->
  normalized s = s /\ normalized (String "#" s) = s.
Proof.
  intros H. unfold fullmatch_hex6 in H. apply andb_true_iff in H.
  destruct H as [L H]. pose proof (all_hex_no_space s H) as N.
  unfold normalized. rewrite !strip_no_space by (cbn [no_space]; rewrite ?N; reflexivity).
  split; [|reflexivity].
  destruct s as [|a r]; [reflexivity|]. cbn [all_hex] in H.
  apply andb_true_iff in H. destruct H as [Ha _].
  destruct (hex_digit_facts a Ha) as (_ & _ & _ & _ & _ & _ & _ & Hh & _).
  cbn [startswith_hash]. rewrite Hh. reflexivity.
Qed.

(** C2: [_parse_hex_color] accepts six hexadecimal digits, in either case
    and with or without a leading [#]: ["1F4E79"], ["#1F4E79"] and
    ["1f4e79"] all give RGB (31, 78, 121).  For a missing value ([None],
    [""]) and for every malformed one (["zzzzzz"], ["12345"], ...) it gives
    the default color [1F4E79], RGB (31, 78, 121).  It never raises. *)
Theorem parse_hex_color_lenient (s : string) :
  fullmatch_hex6 s = true ->
  (_parse_hex_color (Some s) = Ok (hex6_rgb s)
   /\ _parse_hex_color (Some (String "#" s)) = Ok (hex6_rgb s))
  /\ (forall a b c d e f a' b' c' d' e' f' : ascii,
        digit_value <$> [a; b; c; d; e; f]
        = digit_value <$> [a'; b'; c'; d'; e'; f'] ->
        hex6_rgb (string_of_list_ascii [a; b; c; d; e; f])
        = hex6_rgb (string_of_list_ascii [a'; b'; c'; d'; e'; f']))
  /\ (digit_value <$> ["a"; "b"; "c"; "d"; "e"; "f"]%char
      = digit_value <$> ["A"; "B"; "C"; "D"; "E"; "F"]%char)
  /\ (_parse_hex_color (Some "1F4E79") = Ok (RGB 31 78 121)
      /\ _parse_hex_color (Some "#1F4E79") = Ok (RGB 31 78 121)
      /\ _parse_hex_color (Some "1f4e79") = Ok (RGB 31 78 121))
  /\ (_parse_hex_color None = Ok (RGB 31 78 121)
      /\ _parse_hex_color (Some "") = Ok (RGB 31 78 121)
      /\ _parse_hex_color (Some "zzzzzz") = Ok (RGB 31 78 121)
      /\ _parse_hex_color (Some "12345") = Ok (RGB 31 78 121))
  /\ (forall v : string,
        fullmatch_hex6 (normalized v) = false ->
        _parse_hex_color (Some v) = Ok (RGB 31 78 121))
  /\ (forall v : option string, exists color, _parse_hex_color v = Ok color).
Proof.
  intros H. destruct (normalized_hex6 s H) as [N1 N2].
  assert (E : String.eqb s "" = false).
  { destruct s; [discriminate H|reflexivity]. }
  split.
  { rewrite !parse_hex_color_eq, N1, N2, E, H. split; reflexivity. }
  split.
  { intros a b c d e f a' b' c' d' e' f' D. injection D as Da Db Dc Dd De Df.
    cbn [string_of_list_ascii hex6_rgb]. unfold hex_byte. congruence. }
  split; [reflexivity|].
  split; [repeat split; reflexivity|].
  split; [repeat split; reflexivity|].
  split.
  - intros v F. rewrite parse_hex_color_eq, F, orb_true_r. reflexivity.
  - intros v. rewrite parse_hex_color_eq. eexists. reflexivity.
Qed.

Lemma parse_hex_color_lenient_witness :
  fullmatch_hex6 "ff8000" = true
  /\ _parse_hex_color (Some "ff8000") = Ok (RGB 255 128 0)
  /\ _parse_hex_color (Some "#ff8000") = Ok (RGB 255 128 0).
Proof.
  split; [reflexivity|].
  exact (proj1 (parse_hex_color_lenient "ff8000" eq_refl)).
Defined.

(** C3: the code at the input where it departs from the claim.  With a
    slide count of 1 and an empty title size cell the constructor raises
    the [TypeError] of [int(None)], not the [ValueError] of the validation:
    the coercions of the sizes come before the test of the slide count, and
    an empty size cell gets no default.  Nothing is written. *)
Lemma slide_count_1_raises_TypeError :
  py_int (A2 short_settings_sheet) = Ok 1
  /\ exists e,
       __init__ example_repr "data.xlsx" "presentation.pptx"
         (fs_with short_settings_sheet)
       = (Raise e, fs_with short_settings_sheet)
       /\ exn_cls e = TypeError /\ exn_cls e <> ValueError.
Proof.
  split; [reflexivity|]. eexists. split; [reflexivity|].
  split; [reflexivity|discriminate].
Qed.

(** C9: when an integer cell of the settings row (A2, B2, D2) holds
    content that is no number, [int] raises ([ValueError] for text,
    [TypeError] for an empty cell or a date), and the exception of the
    first coercion that fails leaves [_read_settings], the constructor and
    the script unchanged: nothing catches it, wraps it or substitutes a
    default, and nothing is written. *)
Theorem coercion_failure_propagates rf tpl (sheet0 : Worksheet) :
  non_numeric (A2 sheet0) || non_numeric (B2 sheet0)
  || non_numeric (D2 sheet0) = true ->
  exists v e,
    v ∈ [A2 sheet0; B2 sheet0; D2 sheet0]
    /\ py_int v = Raise e
    /\ _read_settings rf sheet0 = Raise e
    /\ (non_numeric v = true ->
        exn_cls e = ValueError \/ exn_cls e = TypeError)
    /\ forall fs excel pptx wb sheet1 rest,
         xlsx_files fs !! excel = Some wb ->
         worksheets wb = sheet0 :: sheet1 :: rest ->
         __init__ rf excel pptx fs = (Raise e, fs)
         /\ main rf tpl excel pptx fs = (Raise e, fs).
Proof.
  intros H.
  assert (P : forall e, _read_settings rf sheet0 = Raise e ->
    forall fs excel pptx wb sheet1 rest,
      xlsx_files fs !! excel = Some wb ->
      worksheets wb = sheet0 :: sheet1 :: rest ->
      __init__ rf excel pptx fs = (Raise e, fs)
      /\ main rf tpl excel pptx fs = (Raise e, fs)).
  { intros e R fs excel pptx wb sheet1 rest E W.
    rewrite main_eq, (init_eq rf excel pptx fs wb E), W, R.
    split; reflexivity. }
  assert (C : forall v e, non_numeric v = true -> py_int v = Raise e ->
    exn_cls e = ValueError \/ exn_cls e = TypeError).
  { intros v e Hv Ev. destruct (non_numeric_raises v Hv) as (e' & Ev' & Hc).
    congruence. }
  pose proof (read_settings_eq rf sheet0) as R.
  destruct (py_int (A2 sheet0)) as [n|ea] eqn:A.
  - destruct (py_int (B2 sheet0)) as [t|eb] eqn:B.
    + destruct (py_int (D2 sheet0)) as [b|ed] eqn:D.
      * exfalso. apply orb_true_iff in H. destruct H as [H|H];
          [apply orb_true_iff in H; destruct H as [H|H]|];
          destruct (non_numeric_raises _ H) as (e & Ee & _); congruence.
      * exists (D2 sheet0), ed.
        split; [do 2 apply list_elem_of_further; apply list_elem_of_here|]. split; [exact D|].
        split; [exact R|]. split; [intros Hv; apply (C _ _ Hv D)|apply P, R].
    + exists (B2 sheet0), eb.
      split; [apply list_elem_of_further, list_elem_of_here|]. split; [exact B|].
      split; [exact R|]. split; [intros Hv; apply (C _ _ Hv B)|apply P, R].
  - exists (A2 sheet0), ea. split; [apply list_elem_of_here|]. split; [exact A|].
    split; [exact R|]. split; [intros Hv; apply (C _ _ Hv A)|apply P, R].
Qed.

Lemma coercion_failure_propagates_witness :
  non_numeric (A2 text_settings_sheet) = true
  /\ exists e,
       exn_cls e = ValueError
       /\ main example_repr default_template "data.xlsx" "presentation.pptx"
            (fs_with text_settings_sheet)
          = (Raise e, fs_with text_settings_sheet).
Proof.
  split; [reflexivity|].
  destruct (coercion_failure_propagates example_repr default_template
              text_settings_sheet eq_refl)
    as (v & e & _ & _ & R & _ & P).
  exists e. split.
  - assert (E : _read_settings example_repr text_settings_sheet
                = Raise (Exn ValueError "invalid literal for int()"))
      by reflexivity.
    rewrite R in E. injection E as ->. reflexivity.
  - exact (proj2 (P (fs_with text_settings_sheet) "data.xlsx"%string
                    "presentation.pptx"%string
                    {| worksheets := [text_settings_sheet; example_data_sheet] |}
                    example_data_sheet [] eq_refl eq_refl)).
Defined.

Lemma py_max_is_max a b : py_max a b = Z.max a b.
Proof. unfold py_max. destruct (Z.gtb_spec b a); lia. Qed.

(** C4: the height of the table is [Inches(min(0.35 * rows, 4.9))], where
    4.9 is the float that [7.5 - 1.6 - 1.0] evaluates to.  In EMU that is
    the exact [min(0.35in * rows, 4.9in)] or one EMU less (the float product
    is rounded and [Inches] truncates).  For 2 rows the desired 0.7in is
    used as it is, for 50 rows the desired 17.5in is clamped to 4.9in, and
    for every row count the height is at most 4.9in (4480560 EMU).  Only
    from [2^1023] rows on does the conversion of [rows] to a float raise. *)
Theorem table_height_is_clamped (rows : Z) :
  1 <= rows ->
  Binary64.sub (Binary64.sub (Binary64.literal 75 10) (Binary64.literal 16 10))
    (Binary64.literal 10 10) = Binary64.literal 49 10
  /\ Inches (Binary64.literal 49 10) = Ok CAP_EMU
  /\ match table_box rows with
     | Ok tb =>
         exists r,
           Binary64.float_of_int rows = Ok r
           /\ Inches (Binary64.py_min
                        (Binary64.mul (Binary64.literal 35 100) r)
                        (Binary64.literal 49 10)) = Ok (box_height tb)
           /\ Z.min (ROW_EMU * rows) CAP_EMU - 1 <= box_height tb
              <= Z.min (ROW_EMU * rows) CAP_EMU
           /\ box_height tb <= CAP_EMU
           /\ (15 <= rows -> box_height tb = CAP_EMU)
     | Raise e => e = overflow /\ 2 ^ 1023 <= rows
     end
  /\ (Binary64.mul (Binary64.literal 35 100) (Binary64.of_Z 2)
      = Binary64.literal 7 10
      /\ Binary64.ltb (Binary64.literal 49 10) (Binary64.literal 7 10) = false
      /\ Inches (Binary64.literal 7 10) = Ok 640080
      /\ (b ← table_box 2; Ok (box_height b)) = Ok 640080)
  /\ (Binary64.mul (Binary64.literal 35 100) (Binary64.of_Z 50)
      = Binary64.literal 175 10
      /\ Binary64.ltb (Binary64.literal 49 10) (Binary64.literal 175 10) = true
      /\ (b ← table_box 50; Ok (box_height b)) = Ok CAP_EMU).
Proof.
  intros H. split; [reflexivity|]. split; [reflexivity|].
  split; [|split; repeat split; reflexivity].
  destruct (table_box_cases rows H)
    as [(r & h & Er & Eh & -> & B & C)|[B ->]].
  - exists r. cbn [box_height]. split; [exact Er|]. split; [exact Eh|].
    split; [exact B|]. split; [lia|exact C].
  - split; [reflexivity|exact B].
Qed.

Lemma table_height_is_clamped_witness :
  1 <= 14
  /\ (b ← table_box 14; Ok (box_height b)) = Ok 4480559
  /\ match table_box 14 with
     | Ok tb => box_height tb <= CAP_EMU
     | Raise _ => False
     end.
Proof.
  split; [lia|]. split; [reflexivity|].
  pose proof (table_height_is_clamped 14 ltac:(lia)) as (_ & _ & T & _).
  destruct (table_box 14) as [tb|e].
  - destruct T as (r & _ & _ & _ & B & _). exact B.
  - destruct T as [_ B]. vm_compute in B. apply B. reflexivity.
Defined.

(** C10: the footnote box lies within the slide vertically.  Its top is
    the table top (1.6in) plus the table height (at most 4.9in) plus 0.2in,
    so at most 6.7in (6126480 EMU); its height is 0.4in, so its bottom is
    at most 7.1in (6492240 EMU), below the slide height of 7.5in (6858000
    EMU) -- for every row count for which the table is laid out at all. *)
Theorem footnote_within_slide (rows : Z) :
  1 <= rows ->
  Inches (Binary64.literal 75 10) = Ok 6858000
  /\ Inches (Binary64.literal 16 10) = Ok 1463040
  /\ Inches (Binary64.literal 2 10) = Ok 182880
  /\ Inches (Binary64.literal 4 10) = Ok 365760
  /\ match table_box rows with
     | Ok tb =>
         exists fb,
           footnote_box tb = Ok fb
           /\ box_top tb = 1463040 /\ box_height tb <= CAP_EMU
           /\ box_top fb = box_top tb + box_height tb + 182880
           /\ box_height fb = 365760
           /\ 0 <= box_top fb <= 6126480
           /\ box_top fb + box_height fb <= 6492240
           /\ box_top fb + box_height fb <= 6858000
     | Raise e => e = overflow /\ 2 ^ 1023 <= rows
     end.
Proof.
  intros H. do 4 (split; [reflexivity|]).
  destruct (table_box_cases rows H)
    as [(r & h & Er & Eh & -> & B & C)|[B ->]].
  - eexists. split; [apply footnote_box_eq|]. cbn [box_top box_height].
    unfold ROW_EMU, CAP_EMU in *. repeat split; lia.
  - split; [reflexivity|exact B].
Qed.

Lemma footnote_within_slide_witness :
  1 <= 50
  /\ match table_box 50 with
     | Ok tb =>
         exists fb, footnote_box tb = Ok fb
                    /\ box_top fb + box_height fb <= 6858000
     | Raise _ => False
     end.
Proof.
  split; [lia|].
  pose proof (footnote_within_slide 50 ltac:(lia)) as (_ & _ & _ & _ & T).
  destruct (table_box 50) as [tb|e].
  - destruct T as (fb & F & _ & _ & _ & _ & _ & _ & B). exists fb.
    split; [exact F|exact B].
  - destruct T as [_ B]. vm_compute in B. apply B. reflexivity.
Defined.

Lemma deck_last rf self l5 l1 tb :
  last (deck rf self l5 l1 tb) = Some (final_slide rf self l1 tb).
Proof.
  unfold deck. rewrite app_comm_cons. apply last_snoc.
Qed.

(** C5, as amended: the table of the final slide has as many rows and
    columns as the occupied rectangle of the data sheet: [max_row] by
    [max_column], each at least 1, the smallest range that contains every
    cell of the sheet.  The table cell of sheet cell [(r, c)] holds the
    empty text when the value is [None] -- never the word "None" -- and
    otherwise [str(value)] with each control character other than tab, line
    feed and vertical tab written [_xHHHH_]: [str(value)] itself when it has
    no such character. *)
Theorem final_table_matches_data_sheet rf tpl self fs l5 l1 :
  tpl !! 5%nat = Some l5 -> 0 ∈ l5 -> tpl !! 1%nat = Some l1 -> 0 ∈ l1 ->
  max_row (data_sheet self) < 2 ^ 1023 ->
  1 <= title_size_pt (settings self) <= 4000 ->
  text_size_pt (settings self) <= 4002 ->
  exists fs' d final tb cells,
    create_presentation rf tpl self fs = (Ok tt, fs')
    /\ pptx_files fs' !! pptx_file self = Some d
    /\ last d = Some final
    /\ slide_tables final = [Table tb cells]
    /\ Z.of_nat (length cells) = max_row (data_sheet self)
    /\ (forall row, row ∈ cells ->
          Z.of_nat (length row) = max_column (data_sheet self))
    /\ 1 <= max_row (data_sheet self) /\ 1 <= max_column (data_sheet self)
    /\ (forall r c v,
          ws_cells (data_sheet self) !! (r, c) = Some v ->
          Z.pos r <= max_row (data_sheet self)
          /\ Z.pos c <= max_column (data_sheet self))
    /\ (max_row (data_sheet self) = 1
        \/ exists c v,
             ws_cells (data_sheet self)
               !! (Z.to_pos (max_row (data_sheet self)), c) = Some v)
    /\ (max_column (data_sheet self) = 1
        \/ exists r v,
             ws_cells (data_sheet self)
               !! (r, Z.to_pos (max_column (data_sheet self))) = Some v)
    /\ (forall r c : positive,
          Z.pos r <= max_row (data_sheet self) ->
          Z.pos c <= max_column (data_sheet self) ->
          cells !! (Pos.to_nat r - 1)%nat ≫= (.!! (Pos.to_nat c - 1)%nat)
          = Some match cell_value (data_sheet self) r c with
                 | VNone => ""%string
                 | v => pptx_escape (py_str rf v)
                 end
          /\ (plain_text (py_str rf (cell_value (data_sheet self) r c)) = true ->
              cells !! (Pos.to_nat r - 1)%nat ≫= (.!! (Pos.to_nat c - 1)%nat)
              = Some match cell_value (data_sheet self) r c with
                     | VNone => ""%string
                     | v => py_str rf v
                     end)).
Proof.
  intros L5 T5 L1 T1 R Zt Zb.
  destruct (run_saves_deck rf tpl self fs l5 l1 L5 T5 L1 T1 R Zt Zb)
    as (tb & fs' & _ & E & _ & D).
  exists fs', (deck rf self l5 l1 tb), (final_slide rf self l1 tb), tb,
    (table_cells rf self).
  split; [exact E|]. split; [exact D|]. split; [apply deck_last|].
  split; [apply slide_tables_final|].
  split; [apply table_cells_length|].
  split; [apply table_cells_row_length|].
  split; [apply max_row_pos|]. split; [apply max_column_pos|].
  split; [apply max_row_bound|].
  split; [apply max_row_attained|]. split; [apply max_column_attained|].
  intros r c Hr Hc.
  pose proof (table_cells_lookup rf self (Z.pos r - 1) (Z.pos c - 1)
                ltac:(lia) ltac:(lia)) as T.
  replace (Z.to_nat (Z.pos r - 1)) with (Pos.to_nat r - 1)%nat in T by lia.
  replace (Z.to_nat (Z.pos c - 1)) with (Pos.to_nat c - 1)%nat in T by lia.
  rewrite T. replace (Z.pos r - 1 + 1) with (Z.pos r) by lia.
  replace (Z.pos c - 1 + 1) with (Z.pos c) by lia. cbn [Z.to_pos].
  unfold cell_text. split.
  - destruct (cell_value (data_sheet self) r c); reflexivity.
  - intros P. destruct (cell_value (data_sheet self) r c);
      first [reflexivity | rewrite pptx_escape_plain by exact P; reflexivity].
Qed.

Lemma final_table_matches_data_sheet_witness :
  max_row (data_sheet example_converter) = 3
  /\ max_column (data_sheet example_converter) = 2
  /\ cell_value (data_sheet example_converter) 3 2 = VNone
  /\ cell_value (data_sheet example_converter) 1 1 = VStr "item"
  /\ exists fs' d final tb cells,
       create_presentation example_repr default_template example_converter
         example_fs = (Ok tt, fs')
       /\ pptx_files fs' !! pptx_file example_converter = Some d
       /\ last d = Some final
       /\ slide_tables final = [Table tb cells]
       /\ Z.of_nat (length cells) = 3
       /\ cells !! 2%nat ≫= (.!! 1%nat) = Some ""%string
       /\ cells !! 0%nat ≫= (.!! 0%nat) = Some "item"%string.
Proof.
  split; [reflexivity|]. split; [reflexivity|]. split; [reflexivity|].
  split; [reflexivity|].
  destruct (final_table_matches_data_sheet example_repr default_template
              example_converter example_fs [0] [0; 1])
    as (fs' & d & final & tb & cells & E & D & L & T & N & _ & _ & _ & _ & _ & _ & C).
  - reflexivity.
  - apply list_elem_of_here.
  - reflexivity.
  - apply list_elem_of_here.
  - vm_compute. reflexivity.
  - vm_compute. split; discriminate.
  - vm_compute. discriminate.
  - exists fs', d, final, tb, cells.
    split; [exact E|]. split; [exact D|]. split; [exact L|].
    split; [exact T|]. split; [exact N|]. split.
    + assert (H3 : Z.pos 3 <= max_row (data_sheet example_converter))
        by (vm_compute; discriminate).
      assert (H2 : Z.pos 2 <= max_column (data_sheet example_converter))
        by (vm_compute; discriminate).
      exact (proj1 (C 3%positive 2%positive H3 H2)).
    + assert (H1 : Z.pos 1 <= max_row (data_sheet example_converter))
        by (vm_compute; discriminate).
      assert (H1' : Z.pos 1 <= max_column (data_sheet example_converter))
        by (vm_compute; discriminate).
      exact (proj2 (C 1%positive 1%positive H1 H1') eq_refl).
Defined.

(** C5 as stated fails: a text cell with a carriage return, ["a\rb"], gives
    a table cell that reads ["a_x000D_b"], not the [str] of the value. *)
Lemma carriage_return_is_escaped :
  cell_value (data_sheet cr_converter) 1 1 = VStr cr_text
  /\ exists fs' d final tb cells,
       create_presentation example_repr default_template cr_converter
         (fs_of (workbook cr_converter)) = (Ok tt, fs')
       /\ pptx_files fs' !! pptx_file cr_converter = Some d
       /\ last d = Some final
       /\ slide_tables final = [Table tb cells]
       /\ cells = [["a_x000D_b"%string]]
       /\ cells !! 0%nat ≫= (.!! 0%nat)
          <> Some (py_str example_repr (VStr cr_text)).
Proof.
  split; [reflexivity|].
  destruct (run_saves_deck example_repr default_template cr_converter
              (fs_of (workbook cr_converter)) [0] [0; 1])
    as (tb & fs' & _ & E & _ & D).
  - reflexivity.
  - apply list_elem_of_here.
  - reflexivity.
  - apply list_elem_of_here.
  - vm_compute. reflexivity.
  - vm_compute. split; discriminate.
  - vm_compute. discriminate.
  - exists fs', (deck example_repr cr_converter [0] [0; 1] tb),
      (final_slide example_repr cr_converter [0; 1] tb), tb,
      (table_cells example_repr cr_converter).
    split; [exact E|]. split; [exact D|]. split; [apply deck_last|].
    split; [apply slide_tables_final|].
    split; [vm_compute; reflexivity|]. vm_compute. discriminate.
Qed.

(** C6: the footnote of the final slide reads "* The values are
    estimated." and its font size is [max(8, text_size_pt - 2)] points:
    8pt for a text size of 10, 8pt for 7 (the floor), 18pt for 20.  This
    holds of every deck that a run saves; a run saves one exactly when the
    range check of a font size accepts the title size (1pt to 4000pt) and
    this footnote size (at most 4000pt), and raises otherwise, with nothing
    saved. *)
Theorem footnote_text_and_size rf tpl self fs l5 l1 :
  tpl !! 5%nat = Some l5 -> 0 ∈ l5 -> tpl !! 1%nat = Some l1 -> 0 ∈ l1 ->
  max_row (data_sheet self) < 2 ^ 1023 ->
  (forall fs',
     create_presentation rf tpl self fs = (Ok tt, fs') ->
     exists d final box,
       pptx_files fs' !! pptx_file self = Some d
       /\ last d = Some final
       /\ slide_text_boxes final
          = [TextBox box
               [Par "* The values are estimated."
                  (Some (Pt (Z.max 8 (text_size_pt (settings self) - 2))))
                  None]])
  /\ (1 <= title_size_pt (settings self) <= 4000 ->
      text_size_pt (settings self) <= 4002 ->
      exists fs', create_presentation rf tpl self fs = (Ok tt, fs'))
  /\ (~ (1 <= title_size_pt (settings self) <= 4000
         /\ text_size_pt (settings self) <= 4002) ->
      exists e,
        create_presentation rf tpl self fs = (Raise e, fs)
        /\ exn_cls e = ValueError)
  /\ (text_size_pt (settings self) = 10 ->
      Pt (py_max 8 (text_size_pt (settings self) - 2)) = Pt 8)
  /\ (text_size_pt (settings self) = 7 ->
      Pt (py_max 8 (text_size_pt (settings self) - 2)) = Pt 8)
  /\ (text_size_pt (settings self) = 20 ->
      Pt (py_max 8 (text_size_pt (settings self) - 2)) = Pt 18)
  /\ forall n, Pt n = 12700 * n.
Proof.
  intros L5 T5 L1 T1 R.
  split; [|split; [|split; [|split; [intros ->; reflexivity|
           split; [intros ->; reflexivity|
           split; [intros ->; reflexivity|
                   intros n; unfold Pt, EMUS_PER_PT; lia]]]]]].
  - intros fs0 E0.
    destruct (run_Ok_sizes rf tpl self fs fs0 l5 l1 L5 T5 L1 T1 R E0)
      as [Zt Zb].
    destruct (run_saves_deck rf tpl self fs l5 l1 L5 T5 L1 T1 R Zt Zb)
      as (tb & fs' & _ & E & _ & D).
    rewrite E0 in E. injection E as <-.
    exists (deck rf self l5 l1 tb), (final_slide rf self l1 tb).
    eexists. split; [exact D|]. split; [apply deck_last|].
    rewrite slide_text_boxes_final. unfold footnote_shape, footnote_paragraph.
    rewrite py_max_is_max. reflexivity.
  - intros Zt Zb.
    destruct (run_saves_deck rf tpl self fs l5 l1 L5 T5 L1 T1 R Zt Zb)
      as (tb & fs' & _ & E & _).
    exists fs'. exact E.
  - intros N.
    destruct (run_refused rf tpl self fs l5 l1 L5 T5 L1 T1 R N) as [sz E].
    eexists. split; [exact E|reflexivity].
Qed.

Lemma footnote_text_and_size_witness :
  text_size_pt (settings example_converter) = 18
  /\ exists fs' d final box,
       create_presentation example_repr default_template example_converter
         example_fs = (Ok tt, fs')
       /\ pptx_files fs' !! pptx_file example_converter = Some d
       /\ last d = Some final
       /\ slide_text_boxes final
          = [TextBox box [Par "* The values are estimated." (Some (Pt 16)) None]].
Proof.
  split; [reflexivity|].
  destruct (footnote_text_and_size example_repr default_template
              example_converter example_fs [0] [0; 1])
    as (F & S & _).
  - reflexivity.
  - apply list_elem_of_here.
  - reflexivity.
  - apply list_elem_of_here.
  - vm_compute. reflexivity.
  - destruct S as [fs' E];
      [vm_compute; split; discriminate|vm_compute; discriminate|].
    destruct (F fs' E) as (d & final & box & D & L & B).
    exists fs', d, final, box.
    split; [exact E|]. split; [exact D|]. split; [exact L|exact B].
Defined.

(** C7: when the body placeholder of a content slide cannot be populated,
    the exception is caught and ignored.  The statements under [try] fail
    when the layout has no placeholder 1 ([KeyError], before anything is
    changed) and when the range check refuses the body size ([ValueError],
    after the text of the body is set).  Either way the handler returns
    normally in every state, the slide stays in the deck with its title,
    the loop goes on, the deck is saved with all its slides, and
    [create_presentation] returns [None] as it does when every body is
    populated. *)
Theorem body_failure_is_swallowed rf tpl self fs l5 l1 :
  tpl !! 5%nat = Some l5 -> 0 ∈ l5 -> tpl !! 1%nat = Some l1 -> 0 ∈ l1 ->
  1 ∉ l1 \/ ~ (1 <= text_size_pt (settings self) <= 4000) ->
  max_row (data_sheet self) < 2 ^ 1023 ->
  1 <= title_size_pt (settings self) <= 4000 ->
  text_size_pt (settings self) <= 4002 ->
  2 <= slide_count (settings self) ->
  (forall S t,
     let prs := mk tpl (S ++ [{| slide_shapes := titled l1 t |}]) in
     exists e prs',
       fill_body self (length S) prs = (Raise e, prs')
       /\ (1 ∉ l1 -> exn_cls e = KeyError /\ prs' = prs)
       /\ (1 ∈ l1 ->
           exn_cls e = ValueError
           /\ prs' = mk tpl (S ++ [{| slide_shapes :=
                                replace_placeholder 1 [Par body_text None None]
                                  (titled l1 t) |}]))
       /\ try_except (fill_body self (length S)) (fun _ => mret tt) prs
          = (Ok tt, prs'))
  /\ (forall s prs,
        fst (try_except (fill_body self s) (fun _ => mret tt) prs) = Ok tt)
  /\ exists fs' d,
       create_presentation rf tpl self fs = (Ok tt, fs')
       /\ pptx_files fs' !! pptx_file self = Some d
       /\ Z.of_nat (length d) = slide_count (settings self)
       /\ forall k,
            1 <= k <= slide_count (settings self) - 2 ->
            exists sl,
              d !! Z.to_nat k = Some sl
              /\ slide_title sl
                 = Some [Par ("Slide " +:+ pretty k) None None]
              /\ slide_body sl
                 = (if decide (1 ∈ l1) then Some [Par body_text None None]
                    else None)
              /\ (1 ∉ l1 ->
                  slide_shapes sl = titled l1 ("Slide " +:+ pretty k)).
Proof.
  intros L5 T5 L1 T1 B R Zt Zb N.
  assert (Z : 1 ∈ l1 -> size_ok (text_size_pt (settings self)) = false).
  { intros H1. destruct B as [B|B]; [contradiction|].
    unfold size_ok. destruct (Z.leb_spec 1 (text_size_pt (settings self)));
      [|reflexivity].
    destruct (Z.leb_spec (text_size_pt (settings self)) 4000);
      [|reflexivity].
    exfalso. apply B. lia. }
  split; [|split].
  - intros S t prs. unfold prs.
    destruct (decide (1 ∈ l1)) as [H1|H1].
    + eexists. eexists.
      split; [rewrite (fill_body_present tpl self S l1 t H1), (Z H1);
              reflexivity|].
      split; [intros H; contradiction|].
      split; [intros _; split; [reflexivity|];
              unfold body_paragraph; rewrite (Z H1); reflexivity|].
      unfold try_except.
      rewrite (fill_body_present tpl self S l1 t H1), (Z H1). reflexivity.
    + eexists. eexists.
      split; [apply fill_body_missing, H1|].
      split; [intros _; split; reflexivity|].
      split; [intros H; contradiction|].
      unfold try_except. rewrite fill_body_missing by exact H1. reflexivity.
  - intros s prs. unfold try_except.
    destruct (fill_body self s prs) as [[[]|e] prs']; reflexivity.
  - destruct (run_saves_deck rf tpl self fs l5 l1 L5 T5 L1 T1 R Zt Zb)
      as (tb & fs' & _ & E & _ & D).
    exists fs', (deck rf self l5 l1 tb).
    split; [exact E|]. split; [exact D|].
    split; [apply (deck_length rf self l5 l1 tb N)|].
    intros k Hk. exists (content_slide self l1 k).
    split; [apply deck_lookup_content, Hk|].
    split; [apply slide_title_content, T1|].
    rewrite slide_body_content. unfold content_slide, body_paragraph.
    destruct (decide (1 ∈ l1)) as [H1|H1].
    + rewrite (Z H1). split; [reflexivity|intros H; contradiction].
    + split; reflexivity.
Qed.

Lemma body_failure_is_swallowed_witness :
  default_template !! 1%nat = Some [0; 1]
  /\ text_size_pt (settings unsized_converter) = 0
  /\ exists fs' d,
       create_presentation example_repr default_template unsized_converter
         example_fs = (Ok tt, fs')
       /\ pptx_files fs' !! pptx_file unsized_converter = Some d
       /\ Z.of_nat (length d) = 4
       /\ exists sl,
            d !! 1%nat = Some sl
            /\ slide_title sl = Some [Par "Slide 1" None None]
            /\ slide_body sl = Some [Par "Content goes here…" None None].
Proof.
  split; [reflexivity|]. split; [reflexivity|].
  destruct (body_failure_is_swallowed example_repr default_template
              unsized_converter example_fs [0] [0; 1])
    as (_ & _ & fs' & d & E & D & L & C).
  - reflexivity.
  - apply list_elem_of_here.
  - reflexivity.
  - apply list_elem_of_here.
  - right. vm_compute. intros [H _]. apply H. reflexivity.
  - vm_compute. reflexivity.
  - vm_compute. split; discriminate.
  - vm_compute. discriminate.
  - vm_compute. discriminate.
  - exists fs', d. split; [exact E|]. split; [exact D|]. split; [exact L|].
    destruct (C 1) as (sl & Hl & Ht & Hb & _); [vm_compute; split; discriminate|].
    exists sl. split; [exact Hl|]. split; [exact Ht|exact Hb].
Defined.

(** C8, as amended: the content slide at position [index] of the deck
    (counted from 1), for [index] from 2 to [slide_count - 1], is titled
    "Slide {index-1}": the content slides are titled "Slide 1" to
    "Slide N-2" in order.  Its body, when the layout has the body
    placeholder, is one paragraph with the fixed text "Content goes here…",
    at the body size of the settings when that is a size from 1pt to
    4000pt; the range check refuses any other size, the failure is
    swallowed, and the text is left without a size of its own. *)
Theorem content_slides_are_numbered rf tpl self fs l5 l1 :
  tpl !! 5%nat = Some l5 -> 0 ∈ l5 -> tpl !! 1%nat = Some l1 -> 0 ∈ l1 ->
  max_row (data_sheet self) < 2 ^ 1023 ->
  1 <= title_size_pt (settings self) <= 4000 ->
  text_size_pt (settings self) <= 4002 ->
  exists fs' d,
    create_presentation rf tpl self fs = (Ok tt, fs')
    /\ pptx_files fs' !! pptx_file self = Some d
    /\ (forall index,
          2 <= index <= slide_count (settings self) - 1 ->
          exists sl,
            d !! Z.to_nat (index - 1) = Some sl
            /\ slide_title sl
               = Some [Par ("Slide " +:+ pretty (index - 1)) None None]
            /\ slide_body sl
               = if decide (1 ∈ l1)
                 then Some [Par body_text
                              (if decide (1 <= text_size_pt (settings self)
                                          <= 4000)
                               then Some (Pt (text_size_pt (settings self)))
                               else None)
                              None]
                 else None)
    /\ ("Slide " +:+ pretty 1 = "Slide 1")%string
    /\ body_text = "Content goes here…"%string.
Proof.
  intros L5 T5 L1 T1 R Zt Zb.
  destruct (run_saves_deck rf tpl self fs l5 l1 L5 T5 L1 T1 R Zt Zb)
    as (tb & fs' & _ & E & _ & D).
  exists fs', (deck rf self l5 l1 tb).
  split; [exact E|]. split; [exact D|].
  split; [|split; reflexivity].
  intros index Hi. exists (content_slide self l1 (index - 1)).
  split; [apply deck_lookup_content; lia|].
  split; [apply slide_title_content, T1|].
  rewrite slide_body_content. unfold body_paragraph, size_ok.
  destruct (decide (1 ∈ l1)); [|reflexivity].
  destruct (decide (1 <= text_size_pt (settings self) <= 4000)) as [H|H].
  - destruct (Z.leb_spec 1 (text_size_pt (settings self))); [|lia].
    destruct (Z.leb_spec (text_size_pt (settings self)) 4000); [|lia].
    reflexivity.
  - destruct (Z.leb_spec 1 (text_size_pt (settings self))); [|reflexivity].
    destruct (Z.leb_spec (text_size_pt (settings self)) 4000);
      [lia|reflexivity].
Qed.

Lemma content_slides_are_numbered_witness :
  default_template !! 1%nat = Some [0; 1]
  /\ exists fs' d sl,
       create_presentation example_repr default_template example_converter
         example_fs = (Ok tt, fs')
       /\ pptx_files fs' !! pptx_file example_converter = Some d
       /\ d !! 2%nat = Some sl
       /\ slide_title sl = Some [Par "Slide 2" None None]
       /\ slide_body sl = Some [Par "Content goes here…" (Some (Pt 18)) None].
Proof.
  split; [reflexivity|].
  destruct (content_slides_are_numbered example_repr default_template
              example_converter example_fs [0] [0; 1])
    as (fs' & d & E & D & C & _).
  - reflexivity.
  - apply list_elem_of_here.
  - reflexivity.
  - apply list_elem_of_here.
  - vm_compute. reflexivity.
  - vm_compute. split; discriminate.
  - vm_compute. discriminate.
  - destruct (C 3) as (sl & Hl & Ht & Hb); [vm_compute; split; discriminate|].
    exists fs', d, sl. split; [exact E|]. split; [exact D|].
    split; [exact Hl|]. split; [exact Ht|exact Hb].
Defined.

(** C8 as stated fails: with a body size of 0 the text of the body is
    inserted and has no size, not the size of the settings. *)
Lemma body_size_0_is_not_set :
  text_size_pt (settings unsized_converter) = 0
  /\ exists fs' d sl,
       create_presentation example_repr default_template unsized_converter
         example_fs = (Ok tt, fs')
       /\ pptx_files fs' !! pptx_file unsized_converter = Some d
       /\ d !! 1%nat = Some sl
       /\ slide_body sl = Some [Par "Content goes here…" None None]
       /\ slide_body sl
          <> Some [Par "Content goes here…"
                     (Some (Pt (text_size_pt (settings unsized_converter))))
                     None].
Proof.
  split; [reflexivity|].
  destruct (run_saves_deck example_repr default_template unsized_converter
              example_fs [0] [0; 1])
    as (tb & fs' & _ & E & _ & D).
  - reflexivity.
  - apply list_elem_of_here.
  - reflexivity.
  - apply list_elem_of_here.
  - vm_compute. reflexivity.
  - vm_compute. split; discriminate.
  - vm_compute. discriminate.
  - exists fs', (deck example_repr unsized_converter [0] [0; 1] tb),
      (content_slide unsized_converter [0; 1] 1).
    split; [exact E|]. split; [exact D|].
    split; [apply (deck_lookup_content example_repr unsized_converter
                     [0] [0; 1] tb 1); vm_compute; split; discriminate|].
    split; [vm_compute; reflexivity|]. vm_compute. discriminate.
Qed.

(** * Further properties of the code *)

(** ** Colors *)






Lemma lstrip_no_space c : no_space c = true -> lstrip is_space c = c.
Proof.
  destruct c as [|a c]; [reflexivity|]. cbn [no_space lstrip].
  intros H. apply andb_true_iff in H. destruct H as [H _].
  destruct (is_space a); [discriminate H|reflexivity].
Qed.














(** ** The constructor *)







(** ** The files *)




(** ** The layout of the final slide *)






